(** * Derived metrics of the finance tracker

    A shallow embedding of the metric computations that the React
    components of the application perform inline:

    - [FinanceTracker.calculateSummary]
    - [ExpenseChart.chartData] and [ExpenseChart.dataWithPercentages]
    - [TrendChart.chartData]
    - [BudgetManager.budgetAnalysis]
    - [FinancialGoals.updateGoalProgress] and
      [FinancialGoals.getProgressPercentage]

    A TypeScript [number] is an IEEE 754 binary64 value; it is modelled by
    Rocq's primitive [float], whose operations are the same correctly
    rounded binary64 operations.  Strings are [string]s; the values that
    the components compare ([yyyy-MM-dd] dates, month prefixes) are ASCII,
    where the byte order of [string] is JavaScript's code unit order.
    The clock ([new Date()]) is a parameter of every function that reads
    it. *)

From Stdlib Require Import Floats ZArith List String Ascii Bool Lia.
From Stdlib Require Import Permutation Sorted DecimalString.
Import ListNotations.

Set Warnings "-inexact-float".

Local Open Scope float_scope.

(* ================================================================== *)
(** * Part I: the model                                                *)
(* ================================================================== *)

(** ** JavaScript numbers *)

Module JS.

(** The sign test that tells [-0] from [+0]. *)
Definition is_neg_zero (x : float) : bool :=
  match Prim2SF x with
  | S754_zero true => true
  | _ => false
  end.

(** [ToBoolean] on a number: [0], [-0] and [NaN] are falsy. *)
Definition truthy (x : float) : bool :=
  negb (is_nan x || (x =? 0)).

(** [v || d] where [v] is a property value that may be [undefined]. *)
Definition or_else (v : option float) (d : float) : float :=
  match v with
  | Some x => if truthy x then x else d
  | None => d
  end.

(** [Math.max(x, y)]: [NaN] if either is [NaN]; [+0] is larger than [-0]. *)
Definition max (x y : float) : float :=
  if is_nan x || is_nan y then nan
  else if x <? y then y
  else if y <? x then x
  else if is_neg_zero x then y else x.

(** [Math.min(x, y)]: [NaN] if either is [NaN]; [-0] is smaller than [+0]. *)
Definition min (x y : float) : float :=
  if is_nan x || is_nan y then nan
  else if x <? y then x
  else if y <? x then y
  else if is_neg_zero x then x else y.

(** Decimal digits of a natural number, ["0"] for zero. *)
Definition digits (n : N) : string :=
  NilZero.string_of_uint (N.to_uint n).

(** [x.toFixed(1)].  A non-finite [x] is printed by [Number::toString].
    Otherwise the sign is split off, and [n] is the integer for which
    [n / 10 - |x|] is closest to zero, the larger one on a tie; the text
    is the digits of [n] with a point before the last one.  For
    [|x| >= 1e21] the method falls back to [Number::toString] and its
    exponent notation, which is not modelled: the result is [None]. *)
Definition toFixed1 (x : float) : option string :=
  match Prim2SF x with
  | S754_nan => Some "NaN"%string
  | S754_infinity s => Some (if s then "-Infinity" else "Infinity")%string
  | S754_zero _ => Some "0.0"%string
  | S754_finite s m e =>
      let big :=
        match e with
        | Zneg _ => false
        | _ => (10 ^ 21 <=? Zpos m * 2 ^ e)%Z
        end in
      if big then None
      else
        let n :=
          match e with
          | Zneg k => ((20 * Zpos m + 2 ^ Zpos k) / 2 ^ (Zpos k + 1))%Z
          | _ => (10 * Zpos m * 2 ^ e)%Z
          end in
        Some ((if s then "-" else EmptyString)
              ++ digits (Z.to_N (n / 10)) ++ "." ++ digits (Z.to_N (n mod 10)))%string
  end.

End JS.

(** ** JavaScript objects used as dictionaries

    [{} as Record<string, number>]: the own properties in creation order.
    Reading a key that is not an own property of [{}] reaches
    [Object.prototype]; the keys for which that finds something are
    [prototype_keys]. *)

Module JSObject.

Definition t := list (string * float).

Definition prototype_keys : list string :=
  [ "constructor"; "__defineGetter__"; "__defineSetter__"; "hasOwnProperty";
    "__lookupGetter__"; "__lookupSetter__"; "isPrototypeOf";
    "propertyIsEnumerable"; "toString"; "valueOf"; "__proto__";
    "toLocaleString" ]%string.

Definition inherited (key : string) : bool :=
  existsb (String.eqb key) prototype_keys.

(** [obj[key]] for a key that is not inherited: [None] is [undefined]. *)
Fixpoint get (obj : t) (key : string) : option float :=
  match obj with
  | [] => None
  | (k, v) :: rest => if (k =? key)%string then Some v else get rest key
  end.

(** [obj[key] = v]: an existing property keeps its place, a new one is
    created after the others. *)
Fixpoint set (obj : t) (key : string) (v : float) : t :=
  match obj with
  | [] => [(key, v)]
  | (k, w) :: rest =>
      if (k =? key)%string then (k, v) :: rest else (k, w) :: set rest key v
  end.

Definition is_digit (c : ascii) : bool :=
  (48 <=? nat_of_ascii c)%nat && (nat_of_ascii c <=? 57)%nat.

Fixpoint decimal_value (acc : N) (s : string) : option N :=
  match s with
  | EmptyString => Some acc
  | String c rest =>
      if is_digit c
      then decimal_value (10 * acc + N.of_nat (nat_of_ascii c - 48)) rest
      else None
  end.

(** A key is an array index when it is the canonical decimal text of an
    integer below [2^32 - 1]. *)
Definition array_index (key : string) : option N :=
  match key with
  | EmptyString => None
  | String c rest =>
      if (c =? "0")%char && negb (rest =? EmptyString)%string then None
      else
        match decimal_value 0 key with
        | Some n => if (n <=? 4294967294)%N then Some n else None
        | None => None
        end
  end.

Fixpoint insert_index (e : N * (string * float)) (l : list (N * (string * float)))
  : list (N * (string * float)) :=
  match l with
  | [] => [e]
  | e' :: rest =>
      if (fst e <=? fst e')%N then e :: l else e' :: insert_index e rest
  end.

Definition indexed (obj : t) : list (N * (string * float)) :=
  flat_map (fun kv => match array_index (fst kv) with
                      | Some n => [(n, kv)]
                      | None => []
                      end) obj.

Definition named (obj : t) : t :=
  filter (fun kv => match array_index (fst kv) with
                    | Some _ => false
                    | None => true
                    end) obj.

(** [Object.entries(obj)]: array indices in ascending numeric order, then
    the other keys in creation order. *)
Definition entries (obj : t) : list (string * float) :=
  map snd (fold_right insert_index [] (indexed obj)) ++ named obj.

End JSObject.

(** ** [Array.prototype.sort]

    The sort is stable: [a] goes behind [b] only when
    [compareFn a b > 0], and a [NaN] result counts as [0].  It is
    modelled by a stable insertion sort. *)

Section ArraySort.

Context {A : Type}.
Variable compareFn : A -> A -> float.

Fixpoint sort_insert (a : A) (sorted : list A) : list A :=
  match sorted with
  | [] => [a]
  | b :: rest =>
      if 0 <? compareFn a b then b :: sort_insert a rest else a :: sorted
  end.

Definition array_sort (l : list A) : list A :=
  fold_right sort_insert [] l.

End ArraySort.

(** ** Calendar days

    A [Date] at local midnight is identified with its day number, counted
    from 1970-01-01.  [civil] is the proleptic Gregorian calendar that
    [Date] implements, and [format_yyyy_MM_dd] and [format_dd_MM] are
    date-fns' [format] with the patterns ['yyyy-MM-dd'] and ['dd.MM'],
    for the years 0001 to 9999. *)

Module Day.

Local Open Scope Z_scope.

Definition t := Z.

Definition civil (day : Z) : Z * Z * Z :=
  let z := day + 719468 in
  let era := z / 146097 in
  let doe := z - era * 146097 in
  let yoe := (doe - doe / 1460 + doe / 36524 - doe / 146096) / 365 in
  let doy := doe - (365 * yoe + yoe / 4 - yoe / 100) in
  let mp := (5 * doy + 2) / 153 in
  let d := doy - (153 * mp + 2) / 5 + 1 in
  let m := if mp <? 10 then mp + 3 else mp - 9 in
  let y := yoe + era * 400 + (if m <=? 2 then 1 else 0) in
  (y, m, d).

(** [addLeadingZeros(n, width)] *)
Definition pad (width : nat) (n : Z) : string :=
  let s := JS.digits (Z.to_N n) in
  (string_of_list_ascii (repeat "0"%char (width - String.length s)) ++ s)%string.

Definition format_yyyy_MM_dd (day : Z) : string :=
  let '(y, m, d) := civil day in
  (pad 4 y ++ "-" ++ pad 2 m ++ "-" ++ pad 2 d)%string.

Definition format_dd_MM (day : Z) : string :=
  let '(_, m, d) := civil day in
  (pad 2 d ++ "." ++ pad 2 m)%string.

(** [subDays(date, n)] followed by [startOfDay]. *)
Definition subDays (day : Z) (n : Z) : Z := day - n.

End Day.

(** ** Records fetched from the backend *)

(** The string literal type ['income' | 'expense']. *)
Inductive TransactionType := Income | Expense.

Definition TransactionType_eqb (a b : TransactionType) : bool :=
  match a, b with
  | Income, Income | Expense, Expense => true
  | _, _ => false
  end.

Module Transaction.
Record t := mk {
  id : string;
  date : string;
  category : string;
  amount : float;
  type : TransactionType;
  description : option string
}.
End Transaction.

Inductive BudgetPeriod := monthly | weekly.

Module Budget.
Record t := mk {
  id : string;
  category : string;
  limit_amount : float;
  period : BudgetPeriod;
  start_date : string;
  end_date : string
}.
End Budget.

Module FinancialGoal.
Record t := mk {
  id : string;
  title : string;
  target_amount : float;
  current_amount : float;
  deadline : option string;
  category : option string;
  is_completed : bool
}.
End FinancialGoal.

(** [transactions.filter(p).reduce((sum, t) => sum + t.amount, 0)] *)
Definition sum_amounts (p : Transaction.t -> bool)
           (transactions : list Transaction.t) : float :=
  fold_left (fun sum t => sum + Transaction.amount t) (filter p transactions) 0.

Definition is_type (ty : TransactionType) (t : Transaction.t) : bool :=
  TransactionType_eqb (Transaction.type t) ty.

(** ** FinanceTracker: [calculateSummary]

    [currentMonth] is [format(new Date(), 'yyyy-MM')]. *)

Module DaySummary.
Record t := mk {
  income : float;
  expenses : float;
  count : nat
}.
End DaySummary.

Module FinanceTracker.

Record Summary := mkSummary {
  income : float;
  expenses : float;
  balance : float
}.

Definition calculateSummary (currentMonth : string)
           (transactions : list Transaction.t) : Summary :=
  let monthTransactions :=
    filter (fun t => String.prefix currentMonth (Transaction.date t))
           transactions in
  let income := sum_amounts (is_type Income) monthTransactions in
  let expenses := sum_amounts (is_type Expense) monthTransactions in
  mkSummary income expenses (income - expenses).

(** [getDaySummary(date)]; [date] is a calendar day. *)
Definition getDaySummary (date : Day.t)
           (transactions : list Transaction.t) : DaySummary.t :=
  let dayStr := Day.format_yyyy_MM_dd date in
  let dayTransactions :=
    filter (fun t => (Transaction.date t =? dayStr)%string) transactions in
  DaySummary.mk (sum_amounts (is_type Income) dayTransactions)
                (sum_amounts (is_type Expense) dayTransactions)
                (List.length dayTransactions).

End FinanceTracker.

(** ** ExpenseChart: [chartData] and [dataWithPercentages]

    [currentMonth] is [new Date().toISOString().slice(0, 7)]. *)

Module ChartItem.
Record t := mk {
  category : string;
  amount : float;
  percentage : float
}.
End ChartItem.

Module ChartSlice.
Record t := mk {
  category : string;
  amount : float;
  percentage : option string
}.
End ChartSlice.

Module ExpenseChart.

Definition monthExpenses (currentMonth : string)
           (transactions : list Transaction.t) : list Transaction.t :=
  filter (fun t => is_type Expense t
                   && String.prefix currentMonth (Transaction.date t))
         transactions.

(** The callback of [reduce]. *)
Definition add_to_category (acc : JSObject.t) (transaction : Transaction.t)
  : JSObject.t :=
  JSObject.set acc (Transaction.category transaction)
    (JS.or_else (JSObject.get acc (Transaction.category transaction)) 0
     + Transaction.amount transaction).

Definition categoryTotals (expenses : list Transaction.t) : JSObject.t :=
  fold_left add_to_category expenses [].

Definition by_amount_desc (a b : ChartItem.t) : float :=
  ChartItem.amount b - ChartItem.amount a.

(** The memoised [chartData].  A category that names a member of
    [Object.prototype] makes [acc[category]] something that is not a
    number; the totals are then no longer a [Record<string, number>],
    and the result is [None]. *)
Definition chartData (currentMonth : string)
           (transactions : list Transaction.t) : option (list ChartItem.t) :=
  let expenses := monthExpenses currentMonth transactions in
  if existsb (fun t => JSObject.inherited (Transaction.category t)) expenses
  then None
  else
    Some (firstn 6
            (array_sort by_amount_desc
               (map (fun '(category, amount) => ChartItem.mk category amount 0)
                    (JSObject.entries (categoryTotals expenses))))).

Definition totalAmount (chartData : list ChartItem.t) : float :=
  fold_left (fun sum item => sum + ChartItem.amount item) chartData 0.

Definition dataWithPercentages (chartData : list ChartItem.t)
  : list ChartSlice.t :=
  map (fun item =>
         ChartSlice.mk (ChartItem.category item) (ChartItem.amount item)
           (if 0 <? totalAmount chartData
            then JS.toFixed1
                   ((ChartItem.amount item / totalAmount chartData) * 100)
            else Some "0"%string))
      chartData.

Definition COLORS : list string :=
  [ "hsl(var(--primary))"; "hsl(var(--expense))"; "hsl(var(--income))";
    "hsl(var(--balance))"; "hsl(var(--secondary))"; "hsl(var(--accent))"
  ]%string.

(** The [fill] of the cells:
    [dataWithPercentages.map((entry, index) => COLORS[index % COLORS.length])].
    The index is below [COLORS.length], so the lookup never misses. *)
Definition cellFills (data : list ChartSlice.t) : list string :=
  map (fun index => nth (index mod List.length COLORS) COLORS EmptyString)
      (seq 0 (List.length data)).

(** [chartData.length === 0]: the card shows the text for "no data" in
    place of the chart. *)
Definition showsEmptyState (chartData : list ChartItem.t) : bool :=
  match chartData with
  | [] => true
  | _ :: _ => false
  end.

End ExpenseChart.

(** ** TrendChart: [chartData]

    [today] is the local calendar day of [new Date()]. *)

Module TrendChart.

Record Bucket := mkBucket {
  date : string;
  displayDate : string;
  income : float;
  expenses : float;
  balance : float
}.

(** The callback of [Array.from({ length: 30 }, (_, i) => ...)]. *)
Definition bucket (today : Day.t) (transactions : list Transaction.t)
           (i : nat) : Bucket :=
  let date := Day.subDays today (29 - Z.of_nat i) in
  let dateStr := Day.format_yyyy_MM_dd date in
  let dayTransactions :=
    filter (fun t => (Transaction.date t =? dateStr)%string) transactions in
  let income := sum_amounts (is_type Income) dayTransactions in
  let expenses := sum_amounts (is_type Expense) dayTransactions in
  mkBucket dateStr (Day.format_dd_MM date) income expenses (income - expenses).

Definition chartData (today : Day.t) (transactions : list Transaction.t)
  : list Bucket :=
  map (bucket today transactions) (seq 0 30).

(** [chartData.some(d => d.income > 0 || d.expenses > 0)] *)
Definition hasData (chartData : list Bucket) : bool :=
  existsb (fun d => (0 <? income d) || (0 <? expenses d)) chartData.

End TrendChart.

(** ** BudgetManager: [budgetAnalysis] *)

Module BudgetManager.

(** One element of [budgetAnalysis]: the budget ([...budget]) and the
    five derived fields. *)
Record Analysis := mkAnalysis {
  budget : Budget.t;
  spent : float;
  remaining : float;
  percentage : float;
  isOverBudget : bool;
  isNearLimit : bool
}.

(** The predicate of the [filter] call.  On strings [a >= b] and
    [a <= b] are the lexicographic comparisons. *)
Definition matches (budget : Budget.t) (t : Transaction.t) : bool :=
  is_type Expense t
  && (Transaction.category t =? Budget.category budget)%string
  && String.leb (Budget.start_date budget) (Transaction.date t)
  && String.leb (Transaction.date t) (Budget.end_date budget).

(** The callback of [budgets.map]. *)
Definition analyse (transactions : list Transaction.t) (budget : Budget.t)
  : Analysis :=
  let spent := sum_amounts (matches budget) transactions in
  let percentage := (spent / Budget.limit_amount budget) * 100 in
  let remaining := Budget.limit_amount budget - spent in
  let isOverBudget := Budget.limit_amount budget <? spent in
  let isNearLimit := (80 <? percentage) && negb isOverBudget in
  mkAnalysis budget spent remaining percentage isOverBudget isNearLimit.

Definition budgetAnalysis (budgets : list Budget.t)
           (transactions : list Transaction.t) : list Analysis :=
  map (analyse transactions) budgets.

(** [Array.from(new Set(values))]: the values without repetition, in the
    order of their first occurrence. *)
Definition array_from_set (values : list string) : list string :=
  fold_left (fun set v => if existsb (String.eqb v) set then set
                          else set ++ [v])
            values [].

(** The memoised [categories], the suggestions of the category input. *)
Definition categories (transactions : list Transaction.t) : list string :=
  array_from_set
    (map Transaction.category (filter (is_type Expense) transactions)).

(** [<Progress value={Math.min(budget.percentage, 100)} />] *)
Definition progressValue (a : Analysis) : float :=
  JS.min (percentage a) 100.

(** The text under the bar:
    [budget.remaining >= 0 ? `Осталось: ...` : `Превышение: ...`]. *)
Inductive RemainingText := LeftToSpend | Exceeded.

Definition remainingText (a : Analysis) : RemainingText :=
  if 0 <=? remaining a then LeftToSpend else Exceeded.

End BudgetManager.

(** ** FinancialGoals: [updateGoalProgress] and [getProgressPercentage]

    The component holds [goals], the copy of the user's rows that the
    last successful [fetchGoals] stored.  The rows themselves live in the
    backend table.  A call of the backend either succeeds or reports an
    error; which of the two is an input of the operation. *)

Module FinancialGoals.

(** [.update({ current_amount, is_completed }).eq('id', goalId)] *)
Record UpdateRequest := mkUpdate {
  eq_id : string;
  set_current_amount : float;
  set_is_completed : bool
}.

Inductive Toast :=
| ProgressUpdated      (* "Прогресс обновлен" *)
| AmountDecreased      (* "Сумма уменьшена" *)
| UpdateFailed         (* "Не удалось обновить прогресс" *)
| LoadFailed.          (* "Не удалось загрузить цели" *)

Record State := mkState {
  goals : list FinancialGoal.t;     (* React state *)
  table : list FinancialGoal.t;     (* the user's rows of [financial_goals],
                                       in the order of [fetchGoals] *)
  writes : list UpdateRequest;      (* update requests sent so far *)
  toasts : list Toast               (* notifications shown so far *)
}.

Record Backend := mkBackend {
  update_ok : bool;
  fetch_ok : bool
}.

Definition apply_update (u : UpdateRequest) (row : FinancialGoal.t)
  : FinancialGoal.t :=
  if (FinancialGoal.id row =? eq_id u)%string
  then FinancialGoal.mk (FinancialGoal.id row) (FinancialGoal.title row)
         (FinancialGoal.target_amount row) (set_current_amount u)
         (FinancialGoal.deadline row) (FinancialGoal.category row)
         (set_is_completed u)
  else row.

(** [fetchGoals]: it catches its own error and only shows a toast. *)
Definition fetchGoals (be : Backend) (st : State) : State :=
  if fetch_ok be
  then mkState (table st) (table st) (writes st) (toasts st)
  else mkState (goals st) (table st) (writes st) (toasts st ++ [LoadFailed]).

Definition updateGoalProgress (be : Backend) (goalId : string)
           (amount : float) (st : State) : State :=
  match find (fun g => (FinancialGoal.id g =? goalId)%string) (goals st) with
  | None => st
  | Some goal =>
      let newAmount :=
        JS.max 0 (FinancialGoal.current_amount goal + amount) in
      let isCompleted := FinancialGoal.target_amount goal <=? newAmount in
      let request := mkUpdate goalId newAmount isCompleted in
      if update_ok be
      then
        let st1 := mkState (goals st) (map (apply_update request) (table st))
                           (writes st ++ [request]) (toasts st) in
        let st2 := fetchGoals be st1 in
        mkState (goals st2) (table st2) (writes st2)
                (toasts st2
                 ++ [if 0 <? amount then ProgressUpdated else AmountDecreased])
      else
        mkState (goals st) (table st) (writes st ++ [request])
                (toasts st ++ [UpdateFailed])
  end.

Definition getProgressPercentage (goal : FinancialGoal.t) : float :=
  JS.min ((FinancialGoal.current_amount goal
           / FinancialGoal.target_amount goal) * 100) 100.

(** [deleteGoal]: [.delete().eq('id', goalId)], then [fetchGoals] and a
    toast.  The result holds the new state, the ids of the delete
    requests that were sent and the toasts of this call that are not
    toasts of [fetchGoals]. *)
Inductive DeleteToast :=
| GoalDeleted        (* "Цель удалена" *)
| DeleteFailed.      (* "Не удалось удалить цель" *)

Record DeleteOutcome := mkDeleteOutcome {
  state : State;
  deletes : list string;
  notices : list DeleteToast
}.

Definition deleteGoal (delete_ok : bool) (be : Backend) (goalId : string)
           (st : State) : DeleteOutcome :=
  if delete_ok
  then
    let st1 := mkState (goals st)
                 (filter (fun row => negb (FinancialGoal.id row =? goalId)%string)
                         (table st))
                 (writes st) (toasts st) in
    mkDeleteOutcome (fetchGoals be st1) [goalId] [GoalDeleted]
  else mkDeleteOutcome st [goalId] [DeleteFailed].

End FinancialGoals.

(** ** Sign classes of binary64 values

    The classes are read on the [spec_float] form of a number:
    [sf_plus] is [+0], a positive finite number or [+infinity];
    [sf_nonneg] also admits [-0]; [sf_pos] excludes the zeros. *)
Definition sf_signed (s : bool) (f : spec_float) : bool :=
  match f with
  | S754_zero s' | S754_infinity s' | S754_finite s' _ _ => Bool.eqb s' s
  | S754_nan => false
  end.

Definition sf_plus (f : spec_float) : bool := sf_signed false f.

Definition sf_nonneg (f : spec_float) : bool :=
  match f with
  | S754_zero _ => true
  | _ => sf_plus f
  end.

Definition sf_pos (f : spec_float) : bool :=
  match f with
  | S754_zero _ => false
  | _ => sf_plus f
  end.

(** ** Vocabulary of the specification *)

(** "sum(amount for t in transactions where P t)": the amounts of the
    transactions that satisfy [P], added one after the other in the order
    of the list, starting from 0. *)
Section RunningTotal.

Variable P : Transaction.t -> Prop.
Variable P_dec : forall t, {P t} + {~ P t}.

Fixpoint total_from (acc : float) (transactions : list Transaction.t) : float :=
  match transactions with
  | [] => acc
  | t :: rest =>
      total_from (if P_dec t then acc + Transaction.amount t else acc) rest
  end.

Definition total_where (transactions : list Transaction.t) : float :=
  total_from 0 transactions.

End RunningTotal.

(** A transaction counts towards a budget when it is an expense of the
    budget's category dated inside the budget's frozen range. *)
Definition counts_towards (budget : Budget.t) (t : Transaction.t) : Prop :=
  Transaction.type t = Expense
  /\ Transaction.category t = Budget.category budget
  /\ String.leb (Budget.start_date budget) (Transaction.date t) = true
  /\ String.leb (Transaction.date t) (Budget.end_date budget) = true.

(** A transaction of kind [ty] dated in the month [month] ("yyyy-MM"). *)
Definition in_month (month : string) (ty : TransactionType)
           (t : Transaction.t) : Prop :=
  Transaction.type t = ty
  /\ String.prefix month (Transaction.date t) = true.

(** A transaction of kind [ty] dated on the day [day] ("yyyy-MM-dd"). *)
Definition on_day (day : string) (ty : TransactionType)
           (t : Transaction.t) : Prop :=
  Transaction.type t = ty /\ Transaction.date t = day.

Definition TransactionType_eq_dec (a b : TransactionType) : {a = b} + {a <> b}.
Proof. decide equality. Defined.

Definition bool_eq_true_dec (b : bool) : {b = true} + {b <> true}.
Proof. destruct b; [left; reflexivity | right; discriminate]. Defined.

Definition counts_towards_dec budget t :
  {counts_towards budget t} + {~ counts_towards budget t}.
Proof.
  unfold counts_towards.
  destruct (TransactionType_eq_dec (Transaction.type t) Expense);
    [| right; tauto].
  destruct (string_dec (Transaction.category t) (Budget.category budget));
    [| right; tauto].
  destruct (bool_eq_true_dec
              (String.leb (Budget.start_date budget) (Transaction.date t)));
    [| right; tauto].
  destruct (bool_eq_true_dec
              (String.leb (Transaction.date t) (Budget.end_date budget)));
    [left; tauto | right; tauto].
Defined.

Definition in_month_dec month ty t :
  {in_month month ty t} + {~ in_month month ty t}.
Proof.
  unfold in_month.
  destruct (TransactionType_eq_dec (Transaction.type t) ty); [| right; tauto].
  destruct (bool_eq_true_dec (String.prefix month (Transaction.date t)));
    [left; tauto | right; tauto].
Defined.

Definition on_day_dec day ty t : {on_day day ty t} + {~ on_day day ty t}.
Proof.
  unfold on_day.
  destruct (TransactionType_eq_dec (Transaction.type t) ty); [| right; tauto].
  destruct (string_dec (Transaction.date t) day); [left; tauto | right; tauto].
Defined.

(** The amounts of the month's transactions of kind [ty], in the order
    of the list. *)
Definition month_amounts (month : string) (ty : TransactionType)
           (transactions : list Transaction.t) : list float :=
  map Transaction.amount
      (filter (fun t => if in_month_dec month ty t then true else false)
              transactions).

(** An expense of the month [month] in the category [c]. *)
Definition expense_of (month c : string) (t : Transaction.t) : Prop :=
  in_month month Expense t /\ Transaction.category t = c.

Definition expense_of_dec month c t :
  {expense_of month c t} + {~ expense_of month c t}.
Proof.
  unfold expense_of.
  destruct (in_month_dec month Expense t); [| right; tauto].
  destruct (string_dec (Transaction.category t) c);
    [left; tauto | right; tauto].
Defined.

(** The month's total expenses. *)
Definition month_total_expenses (month : string)
           (transactions : list Transaction.t) : float :=
  total_where (in_month month Expense) (in_month_dec month Expense)
              transactions.

(** The amounts of the category [c] in a list of transactions, added to
    [acc] one after the other. *)
Definition category_sum (c : string) (acc : float)
           (transactions : list Transaction.t) : float :=
  fold_left (fun s t => if (Transaction.category t =? c)%string
                        then s + Transaction.amount t else s)
            transactions acc.

(** Every value of the object is [+0], positive or [+infinity]. *)
Definition all_plus (obj : JSObject.t) : Prop :=
  forall k v, JSObject.get obj k = Some v -> sf_plus (Prim2SF v) = true.

(** "Sorted descending by amount". *)
Definition amount_desc (a b : ChartItem.t) : Prop :=
  (ChartItem.amount b <=? ChartItem.amount a) = true.

(** The columns of a goal that [updateGoalProgress] does not write. *)
Definition fixed_fields (row : FinancialGoal.t)
  : string * string * float * option string * option string :=
  (FinancialGoal.id row, FinancialGoal.title row,
   FinancialGoal.target_amount row, FinancialGoal.deadline row,
   FinancialGoal.category row).

(** The constraint [CHECK (current_amount >= 0)] of the table
    [financial_goals]. *)
Definition check_current_amount (row : FinancialGoal.t) : Prop :=
  (0 <=? FinancialGoal.current_amount row) = true.


(** The constraint [CHECK (limit_amount > 0)] of the table [budgets]. *)
Definition check_limit_amount (row : Budget.t) : Prop :=
  (0 <? Budget.limit_amount row) = true.

(* ================================================================== *)
(** * Part II: properties                                              *)
(* ================================================================== *)

(** ** The model on small inputs *)

Example format_examples :
  Day.format_yyyy_MM_dd 0 = "1970-01-01"%string
  /\ Day.format_yyyy_MM_dd 19782 = "2024-02-29"%string
  /\ Day.format_yyyy_MM_dd 19783 = "2024-03-01"%string
  /\ Day.format_yyyy_MM_dd 19844 = "2024-05-01"%string
  /\ Day.format_yyyy_MM_dd 20088 = "2024-12-31"%string
  /\ Day.format_yyyy_MM_dd 20089 = "2025-01-01"%string
  /\ Day.format_dd_MM 19844 = "01.05"%string.
Proof. repeat split; reflexivity. Qed.

Example toFixed1_examples :
  JS.toFixed1 100 = Some "100.0"%string
  /\ JS.toFixed1 0.25 = Some "0.3"%string
  /\ JS.toFixed1 0.35 = Some "0.3"%string
  /\ JS.toFixed1 1.45 = Some "1.4"%string
  /\ JS.toFixed1 (-0.04) = Some "-0.0"%string
  /\ JS.toFixed1 (10 / 60 * 100) = Some "16.7"%string
  /\ JS.toFixed1 nan = Some "NaN"%string
  /\ JS.toFixed1 1e21 = None.
Proof. repeat split; reflexivity. Qed.

Example entries_example :
  map fst (JSObject.entries
             [("b", 1); ("10", 2); ("a", 3); ("9", 4); ("01", 5)]%string)
  = ["9"; "10"; "b"; "a"; "01"]%string.
Proof. reflexivity. Qed.

Example min_max_examples :
  JS.max 0 (-0) = 0 /\ JS.max (-0) 0 = 0 /\ JS.max 0 (500 + -1000) = 0
  /\ is_nan (JS.max 0 nan) = true
  /\ JS.min 125 100 = 100 /\ JS.min infinity 100 = 100
  /\ is_nan (JS.min nan 100) = true.
Proof. repeat split; reflexivity. Qed.

(** ** Binary64 facts

    The primitive operations are related to their specification on
    [spec_float] by the axioms of the standard library; the facts below
    are read off that specification. *)

Lemma iter_pos_invariant {A} (Inv : A -> Prop) (f : A -> A) :
  (forall x, Inv x -> Inv (f x)) ->
  forall n x, Inv x -> Inv (SpecFloat.iter_pos f n x).
Proof.
  intros Hf. induction n as [n IH | n IH |]; simpl; intros x Hx; auto.
Qed.

Lemma shr_1_nonneg mrs : (0 <= shr_m mrs -> 0 <= shr_m (shr_1 mrs))%Z.
Proof.
  destruct mrs as [m r s]. simpl.
  destruct m as [| [p | p |] | p]; simpl; lia.
Qed.

Lemma shr_nonneg mrs e n :
  (0 <= shr_m mrs -> 0 <= shr_m (fst (shr mrs e n)))%Z.
Proof.
  intros H. destruct n; simpl; auto.
  apply (iter_pos_invariant (fun r => (0 <= shr_m r)%Z));
    auto using shr_1_nonneg.
Qed.

Lemma shr_record_of_loc_m m l : shr_m (shr_record_of_loc m l) = m.
Proof. destruct l as [| []]; reflexivity. Qed.

Lemma shr_fexp_nonneg m e l :
  (0 <= m -> 0 <= shr_m (fst (shr_fexp prec emax m e l)))%Z.
Proof.
  intros H. unfold shr_fexp. apply shr_nonneg.
  now rewrite shr_record_of_loc_m.
Qed.

Lemma round_nearest_even_nonneg m l :
  (0 <= m -> 0 <= round_nearest_even m l)%Z.
Proof.
  intros H. destruct l as [| []]; simpl; try lia.
  destruct (Z.even m); lia.
Qed.

(** Rounding a non-negative mantissa keeps the sign it is given and never
    produces [NaN]. *)
Lemma binary_round_aux_signed s m e l :
  (0 <= m)%Z -> sf_signed s (binary_round_aux prec emax s m e l) = true.
Proof.
  intros H. unfold binary_round_aux.
  pose proof (shr_fexp_nonneg m e l H) as H1.
  destruct (shr_fexp prec emax m e l) as [mrs' e']. simpl in H1.
  pose proof (shr_fexp_nonneg _ e' loc_Exact
               (round_nearest_even_nonneg _ (loc_of_shr_record mrs') H1)) as H2.
  destruct (shr_fexp prec emax _ e' loc_Exact) as [mrs'' e'']. simpl in H2.
  destruct (shr_m mrs'') as [| p | p]; simpl; try lia.
  - apply eqb_reflx.
  - match goal with |- context [if ?c then _ else _] => destruct c end;
      simpl; apply eqb_reflx.
Qed.

Lemma binary_round_signed s m e :
  sf_signed s (binary_round prec emax s m e) = true.
Proof.
  unfold binary_round.
  destruct (shl_align m e _) as [mz ez].
  apply binary_round_aux_signed. lia.
Qed.

Lemma Prim2SF_0 : Prim2SF 0 = S754_zero false.
Proof. reflexivity. Qed.

Lemma Prim2SF_100 : Prim2SF 100 = S754_finite false 7036874417766400 (-46).
Proof. reflexivity. Qed.

Lemma Prim2SF_infinity : Prim2SF infinity = S754_infinity false.
Proof. reflexivity. Qed.

Lemma Prim2SF_neg_infinity : Prim2SF neg_infinity = S754_infinity true.
Proof. reflexivity. Qed.

Lemma Prim2SF_nan : Prim2SF nan = S754_nan.
Proof. reflexivity. Qed.

Lemma SFcompare_refl f :
  f <> S754_nan -> SFcompare f f = Some Eq.
Proof.
  destruct f as [s | s | | s m e]; simpl; intros H;
    try congruence; destruct s; try reflexivity;
    rewrite Z.compare_refl, Pos.compare_cont_refl; reflexivity.
Qed.

Lemma SFcompare_antisym x y :
  SFcompare y x = option_map CompOpp (SFcompare x y).
Proof.
  destruct x as [[] | [] | | [] mx ex]; destruct y as [[] | [] | | [] my ey];
    try reflexivity; simpl;
    rewrite (Z.compare_antisym ex ey);
    destruct (Z.compare ex ey); simpl; try reflexivity;
    pose proof (Pos.compare_cont_antisym mx my Eq) as H; simpl in H;
    destruct (Pos.compare_cont Eq mx my), (Pos.compare_cont Eq my mx);
    simpl in *; congruence.
Qed.

Lemma is_nan_Prim2SF x : is_nan x = true <-> Prim2SF x = S754_nan.
Proof.
  unfold is_nan. rewrite FloatAxioms.eqb_spec. unfold SFeqb. split.
  - destruct (Prim2SF x) eqn:E; try reflexivity;
      rewrite SFcompare_refl by discriminate; discriminate.
  - intros ->. reflexivity.
Qed.

Lemma is_nan_false_Prim2SF x : is_nan x = false <-> Prim2SF x <> S754_nan.
Proof.
  pose proof (is_nan_Prim2SF x) as [H1 H2].
  destruct (is_nan x); split; intros H; try congruence.
  - exfalso. apply H. auto.
  - intros E. apply H2 in E. discriminate.
Qed.

Lemma leb_0_nonneg x : (0 <=? x) = sf_nonneg (Prim2SF x).
Proof.
  rewrite FloatAxioms.leb_spec, Prim2SF_0.
  destruct (Prim2SF x) as [s | [] | | [] m e]; reflexivity.
Qed.

Lemma ltb_0_pos x : (0 <? x) = sf_pos (Prim2SF x).
Proof.
  rewrite FloatAxioms.ltb_spec, Prim2SF_0.
  destruct (Prim2SF x) as [s | [] | | [] m e]; reflexivity.
Qed.

Lemma eqb_0_Prim2SF x :
  (x =? 0) = true <-> exists s, Prim2SF x = S754_zero s.
Proof.
  rewrite FloatAxioms.eqb_spec, Prim2SF_0. split.
  - destruct (Prim2SF x) as [s | [] | | [] m e]; try discriminate.
    intros _. now exists s.
  - intros [s ->]. reflexivity.
Qed.

Lemma is_infinity_Prim2SF x :
  is_infinity x = true <-> exists s, Prim2SF x = S754_infinity s.
Proof.
  unfold is_infinity. rewrite FloatAxioms.eqb_spec, abs_spec, Prim2SF_infinity. split.
  - destruct (Prim2SF x) as [s | s | | s m e]; simpl; try discriminate.
    intros _. now exists s.
  - intros [s ->]. reflexivity.
Qed.

Lemma is_finite_Prim2SF x :
  is_finite x = true ->
  (exists s, Prim2SF x = S754_zero s)
  \/ (exists s m e, Prim2SF x = S754_finite s m e).
Proof.
  unfold is_finite. rewrite negb_true_iff, orb_false_iff.
  intros [Hnan Hinf]. apply is_nan_false_Prim2SF in Hnan.
  destruct (Prim2SF x) as [s | s | | s m e] eqn:E.
  - left. now exists s.
  - assert (is_infinity x = true) by (apply is_infinity_Prim2SF; eauto).
    congruence.
  - congruence.
  - right. now exists s, m, e.
Qed.

Lemma sf_plus_nonneg f : sf_plus f = true -> sf_nonneg f = true.
Proof. destruct f; simpl; auto. Qed.

Lemma sf_plus_0 : sf_plus (Prim2SF 0) = true.
Proof. reflexivity. Qed.

Lemma sf_plus_not_nan x : sf_plus (Prim2SF x) = true -> is_nan x = false.
Proof.
  intros H. apply is_nan_false_Prim2SF. intros E. rewrite E in H.
  discriminate.
Qed.

Lemma ltb_leb x y : (x <? y) = true -> (x <=? y) = true.
Proof.
  rewrite FloatAxioms.ltb_spec, FloatAxioms.leb_spec. unfold SFltb, SFleb.
  destruct (SFcompare (Prim2SF x) (Prim2SF y)) as [[] |]; congruence.
Qed.

Lemma leb_refl x : is_nan x = false -> (x <=? x) = true.
Proof.
  intros H. apply is_nan_false_Prim2SF in H.
  rewrite FloatAxioms.leb_spec. unfold SFleb.
  now rewrite SFcompare_refl.
Qed.

Lemma leb_not_nan_r x y : (x <=? y) = true -> is_nan y = false.
Proof.
  rewrite FloatAxioms.leb_spec. intros H. apply is_nan_false_Prim2SF.
  intros E. rewrite E in H. unfold SFleb in H.
  destruct (Prim2SF x); discriminate.
Qed.

Lemma ltb_not_nan_r x y : (x <? y) = true -> is_nan y = false.
Proof.
  intros H. apply ltb_leb in H. exact (leb_not_nan_r _ _ H).
Qed.

Lemma ltb_not_nan_l x y : (x <? y) = true -> is_nan x = false.
Proof.
  rewrite FloatAxioms.ltb_spec. intros H. apply is_nan_false_Prim2SF.
  intros E. rewrite E in H. discriminate.
Qed.

Lemma ltb_false_leb a b :
  is_nan a = false -> is_nan b = false -> (a <? b) = false ->
  (b <=? a) = true.
Proof.
  rewrite !is_nan_false_Prim2SF, FloatAxioms.ltb_spec, FloatAxioms.leb_spec.
  unfold SFltb, SFleb. rewrite (SFcompare_antisym (Prim2SF a) (Prim2SF b)).
  intros Ha Hb.
  destruct (SFcompare (Prim2SF a) (Prim2SF b)) as [[] |] eqn:E;
    simpl; try congruence.
  exfalso.
  destruct (Prim2SF a) as [[] | [] | | [] ma ea];
    destruct (Prim2SF b) as [[] | [] | | [] mb eb];
    simpl in E; congruence.
Qed.

(** ** Arithmetic on non-negative numbers *)

Lemma SFdiv_core_nonneg m1 e1 m2 e2 :
  (0 <= fst (fst (SFdiv_core_binary prec emax (Zpos m1) e1 (Zpos m2) e2)))%Z.
Proof.
  unfold SFdiv_core_binary.
  set (s := (e1 - e2 - _)%Z).
  set (m' := match s with Zpos _ => Z.shiftl (Zpos m1) s | Z0 => Zpos m1
                        | Zneg _ => 0%Z end).
  assert (Hm' : (0 <= m')%Z).
  { subst m'. destruct s; try lia. apply Z.shiftl_nonneg. lia. }
  pose proof (Z.div_pos m' (Zpos m2) Hm' ltac:(lia)) as Hq.
  unfold Z.div in Hq.
  destruct (Z.div_eucl m' (Zpos m2)) as [q r]. exact Hq.
Qed.

(** A quotient of a non-negative number by a positive finite one is
    non-negative. *)
Lemma div_nonneg x y :
  (0 <=? x) = true -> (0 <? y) = true -> is_finite y = true ->
  (0 <=? x / y) = true.
Proof.
  rewrite !leb_0_nonneg, ltb_0_pos, div_spec. intros Hx Hy Hfin.
  apply is_finite_Prim2SF in Hfin.
  destruct Hfin as [[s E] | [s [m [e E]]]]; rewrite E in *; [discriminate |].
  destruct s; [discriminate |].
  destruct (Prim2SF x) as [sx | [] | | [] mx ex]; try discriminate;
    try reflexivity.
  unfold SF64div, SFdiv.
  pose proof (SFdiv_core_nonneg mx ex m e) as Hq.
  destruct (SFdiv_core_binary prec emax (Zpos mx) ex (Zpos m) e)
    as [[mz ez] lz]. simpl in Hq.
  apply sf_plus_nonneg, (binary_round_aux_signed false mz ez lz Hq).
Qed.

(** A non-negative number times 100 is non-negative. *)
Lemma mul_100_nonneg x : (0 <=? x) = true -> (0 <=? x * 100) = true.
Proof.
  rewrite !leb_0_nonneg, mul_spec, Prim2SF_100. intros Hx.
  destruct (Prim2SF x) as [sx | [] | | [] mx ex]; try discriminate;
    try reflexivity.
  unfold SF64mul, SFmul.
  apply sf_plus_nonneg, (binary_round_aux_signed false). lia.
Qed.

Lemma add_plus_nonneg a x :
  sf_plus (Prim2SF a) = true -> (0 <=? x) = true ->
  sf_plus (Prim2SF (a + x)) = true.
Proof.
  rewrite leb_0_nonneg, add_spec. intros Ha Hx.
  destruct (Prim2SF a) as [[] | [] | | [] ma ea]; try discriminate;
    destruct (Prim2SF x) as [[] | [] | | [] mx ex]; try discriminate;
    try reflexivity.
  unfold SF64add, SFadd, cond_Zopp, binary_normalize.
  match goal with
  | |- context [(Zpos ?p + Zpos ?q)%Z] =>
      change (Zpos p + Zpos q)%Z with (Zpos (p + q))
  end.
  apply binary_round_signed.
Qed.



(** ** [Math.min], [Math.max] and [||] *)

(** [Math.min(x, c)] lies between a lower bound of both arguments and
    [c]. *)
Lemma min_bounds lo x c :
  (lo <=? x) = true -> (lo <=? c) = true ->
  (lo <=? JS.min x c) = true /\ (JS.min x c <=? c) = true.
Proof.
  intros Hx Hc. unfold JS.min.
  rewrite (leb_not_nan_r _ _ Hx), (leb_not_nan_r _ _ Hc). simpl.
  destruct (x <? c) eqn:Hlt.
  - split; [assumption | now apply ltb_leb].
  - destruct (c <? x) eqn:Hgt.
    + split; [assumption | apply leb_refl, (leb_not_nan_r _ _ Hc)].
    + destruct (JS.is_neg_zero x) eqn:Hz.
      * split; [assumption |].
        (* neither smaller nor larger: equal *)
        revert Hlt Hgt.
        rewrite !FloatAxioms.ltb_spec, FloatAxioms.leb_spec.
        unfold JS.is_neg_zero in Hz.
        destruct (Prim2SF x) as [[] | | |]; try discriminate.
        pose proof (leb_not_nan_r _ _ Hc) as Hn.
        apply is_nan_false_Prim2SF in Hn.
        destruct (Prim2SF c) as [s | [] | | [] m e]; cbv;
          congruence.
      * split; [assumption | apply leb_refl, (leb_not_nan_r _ _ Hc)].
Qed.

Lemma max_0_pos v : (0 <? v) = true -> JS.max 0 v = v.
Proof.
  intros H. unfold JS.max.
  rewrite (ltb_not_nan_r _ _ H), H. reflexivity.
Qed.

Lemma max_0_neg v : (v <? 0) = true -> JS.max 0 v = 0.
Proof.
  intros H. unfold JS.max.
  rewrite (ltb_not_nan_l _ _ H), H.
  replace (0 <? v) with false; [reflexivity |].
  revert H. rewrite !FloatAxioms.ltb_spec, Prim2SF_0.
  destruct (Prim2SF v) as [s | [] | | [] m e]; cbv; congruence.
Qed.

(** [v || 0] is [v] when [v] is [+0], positive or [+infinity]. *)
Lemma or_else_plus a :
  sf_plus (Prim2SF a) = true -> JS.or_else (Some a) 0 = a.
Proof.
  intros H. unfold JS.or_else, JS.truthy.
  rewrite (sf_plus_not_nan _ H). simpl.
  destruct (a =? 0) eqn:E; [| reflexivity]. simpl.
  apply eqb_0_Prim2SF in E. destruct E as [s E].
  rewrite E in H. destruct s; [discriminate |].
  apply Prim2SF_inj. now rewrite E.
Qed.

(** ** Subtraction and order

    For non-negative numbers [b - a] is positive exactly when [a < b]:
    the comparator [b.amount - a.amount] of the chart orders by amount. *)

Local Open Scope Z_scope.

Lemma digits2_pos_size m : digits2_pos m = Pos.size m.
Proof. induction m; simpl; congruence. Qed.

Lemma digits2_pos_bounds m :
  2 ^ (Zpos (digits2_pos m) - 1) <= Zpos m < 2 ^ Zpos (digits2_pos m).
Proof.
  rewrite digits2_pos_size. split.
  - pose proof (Pos.size_le m) as H.
    apply Pos2Z.pos_le_pos in H. rewrite Pos2Z.inj_pow in H.
    replace (Zpos (Pos.size m)) with (Z.succ (Zpos (Pos.size m) - 1)) in H
      by lia.
    rewrite Z.pow_succ_r in H by lia.
    change (Zpos m~0) with (2 * Zpos m) in H. lia.
  - pose proof (Pos.size_gt m) as H.
    apply Pos2Z.pos_lt_pos in H. now rewrite Pos2Z.inj_pow in H.
Qed.

Lemma iter_xO_pow m d : Zpos (Pos.iter xO m d) = Zpos m * 2 ^ Zpos d.
Proof.
  induction d as [| d IH] using Pos.peano_ind.
  - simpl. rewrite Pos2Z.inj_xO. lia.
  - rewrite Pos.iter_succ, Pos2Z.inj_xO, IH, Pos2Z.inj_succ.
    rewrite Z.pow_succ_r by lia. lia.
Qed.

Lemma shl_align_fst m e e' :
  e' <= e -> Zpos (fst (shl_align m e e')) = Zpos m * 2 ^ (e - e').
Proof.
  intros H. unfold shl_align.
  destruct (e' - e) as [| d | d] eqn:E; try lia.
  - replace (e - e') with 0 by lia. cbn [fst]. rewrite Z.pow_0_r. lia.
  - cbn [fst]. rewrite iter_xO_pow.
    replace (e - e') with (Zpos d) by lia. reflexivity.
Qed.

Lemma valid_finite s m e :
  valid_binary (S754_finite s m e) = true ->
  -1074 <= e
  /\ Zpos (digits2_pos m) <= 53
  /\ (-1074 < e -> Zpos (digits2_pos m) = 53).
Proof.
  unfold valid_binary, bounded, canonical_mantissa, fexp, SpecFloat.emin.
  change prec with 53. change emax with 1024.
  rewrite andb_true_iff, Z.eqb_eq. lia.
Qed.

(** On valid positive numbers the comparison is the comparison of the
    mantissas brought to the smaller exponent. *)
Lemma SFcompare_aligned ma ea mb eb :
  valid_binary (S754_finite false ma ea) = true ->
  valid_binary (S754_finite false mb eb) = true ->
  SFcompare (S754_finite false ma ea) (S754_finite false mb eb)
  = Some (Zpos (fst (shl_align ma ea (Z.min ea eb)))
          ?= Zpos (fst (shl_align mb eb (Z.min ea eb)))).
Proof.
  intros Va Vb.
  apply valid_finite in Va. apply valid_finite in Vb.
  destruct Va as [Hea [Hda Hna]]. destruct Vb as [Heb [Hdb Hnb]].
  pose proof (digits2_pos_bounds ma) as Ba.
  pose proof (digits2_pos_bounds mb) as Bb.
  rewrite !shl_align_fst by lia. simpl SFcompare. f_equal.
  destruct (Z.compare_spec ea eb) as [E | L | G].
  - subst eb. rewrite Z.min_id, Z.sub_diag. simpl Z.pow.
    rewrite !Z.mul_1_r. reflexivity.
  - symmetry. apply Z.compare_lt_iff.
    rewrite Z.min_l by lia. rewrite Z.sub_diag. simpl Z.pow.
    rewrite Z.mul_1_r.
    rewrite Hnb in Bb by lia.
    assert (2 ^ 1 <= 2 ^ (eb - ea)) by (apply Z.pow_le_mono_r; lia).
    assert (2 ^ Zpos (digits2_pos ma) <= 2 ^ 53)
      by (apply Z.pow_le_mono_r; lia).
    change (2 ^ (53 - 1)) with 4503599627370496 in Bb.
    change (2 ^ 53) with 9007199254740992 in *.
    change (2 ^ 1) with 2 in *. nia.
  - symmetry. apply Z.compare_gt_iff.
    rewrite Z.min_r by lia. rewrite Z.sub_diag. simpl Z.pow.
    rewrite Z.mul_1_r.
    rewrite Hna in Ba by lia.
    assert (2 ^ 1 <= 2 ^ (ea - eb)) by (apply Z.pow_le_mono_r; lia).
    assert (2 ^ Zpos (digits2_pos mb) <= 2 ^ 53)
      by (apply Z.pow_le_mono_r; lia).
    change (2 ^ (53 - 1)) with 4503599627370496 in Ba.
    change (2 ^ 53) with 9007199254740992 in *.
    change (2 ^ 1) with 2 in *. nia.
Qed.

Lemma shr_1_div2 mrs : 0 <= shr_m mrs -> shr_m (shr_1 mrs) = shr_m mrs / 2.
Proof.
  intros H. rewrite <- Z.div2_div.
  destruct mrs as [m r s]. simpl in *.
  destruct m as [| [p | p |] | p]; try reflexivity; lia.
Qed.

Lemma iter_shr_1_div k :
  forall mrs, 0 <= shr_m mrs ->
    shr_m (SpecFloat.iter_pos shr_1 k mrs) = shr_m mrs / 2 ^ Zpos k.
Proof.
  induction k as [k IH | k IH |]; intros mrs H; simpl SpecFloat.iter_pos.
  - assert (H1 : 0 <= shr_m (shr_1 mrs)) by now apply shr_1_nonneg.
    assert (H2 : 0 <= shr_m (SpecFloat.iter_pos shr_1 k (shr_1 mrs)))
      by (apply (iter_pos_invariant (fun r => 0 <= shr_m r));
          auto using shr_1_nonneg).
    rewrite IH, IH, shr_1_div2 by assumption.
    rewrite !Z.div_div by (try apply Z.pow_pos_nonneg; lia).
    f_equal. rewrite (Pos2Z.inj_xI k).
    replace (2 * Zpos k + 1) with (1 + Zpos k + Zpos k) by lia.
    rewrite !Z.pow_add_r by lia. rewrite Z.pow_1_r. ring.
  - assert (H2 : 0 <= shr_m (SpecFloat.iter_pos shr_1 k mrs))
      by (apply (iter_pos_invariant (fun r => 0 <= shr_m r));
          auto using shr_1_nonneg).
    rewrite IH, IH by assumption.
    rewrite !Z.div_div by (try apply Z.pow_pos_nonneg; lia).
    f_equal. rewrite (Pos2Z.inj_xO k).
    replace (2 * Zpos k) with (Zpos k + Zpos k) by lia.
    rewrite Z.pow_add_r by lia. ring.
  - rewrite shr_1_div2 by assumption. reflexivity.
Qed.

(** Shifting a positive mantissa to its format exponent leaves a positive
    mantissa, and an exponent that is not below the smallest one. *)
Lemma shr_fexp_pos m e l :
  0 < m -> -1074 <= e ->
  0 < shr_m (fst (shr_fexp prec emax m e l))
  /\ -1074 <= snd (shr_fexp prec emax m e l).
Proof.
  intros Hm He. unfold shr_fexp, shr, fexp, SpecFloat.emin.
  change prec with 53. change emax with 1024.
  destruct m as [| p | p]; try lia. simpl Zdigits2.
  pose proof (digits2_pos_bounds p) as B.
  set (d := Zpos (digits2_pos p)) in *.
  destruct (Z.max (d + e - 53) (3 - 1024 - 53) - e) as [| n | n] eqn:E;
    simpl fst; simpl snd; rewrite ?shr_record_of_loc_m; try lia.
  rewrite iter_shr_1_div by (rewrite shr_record_of_loc_m; lia).
  rewrite shr_record_of_loc_m. split; [| lia].
  apply Z.div_str_pos. split; [apply Z.pow_pos_nonneg; lia |].
  apply Z.le_trans with (2 ^ (d - 1)); [| lia].
  apply Z.pow_le_mono_r; lia.
Qed.

Lemma round_nearest_even_pos m l : 0 < m -> 0 < round_nearest_even m l.
Proof.
  intros H. destruct l as [| []]; simpl; try lia.
  destruct (Z.even m); lia.
Qed.

Lemma binary_round_aux_pos m e l :
  0 < m -> -1074 <= e ->
  sf_pos (binary_round_aux prec emax false m e l) = true.
Proof.
  intros Hm He. unfold binary_round_aux.
  destruct (shr_fexp_pos m e l Hm He) as [H1 H1e].
  destruct (shr_fexp prec emax m e l) as [mrs' e']. simpl in H1, H1e.
  destruct (shr_fexp_pos _ e' loc_Exact
              (round_nearest_even_pos _ (loc_of_shr_record mrs') H1) H1e)
    as [H2 _].
  destruct (shr_fexp prec emax _ e' loc_Exact) as [mrs'' e'']. simpl in H2.
  destruct (shr_m mrs'') as [| p | p]; try lia.
  match goal with |- context [if ?c then _ else _] => destruct c end;
    reflexivity.
Qed.

Lemma binary_round_pos m e :
  -1074 <= e -> sf_pos (binary_round prec emax false m e) = true.
Proof.
  intros He. unfold binary_round, shl_align.
  set (e' := fexp prec emax (Zpos (digits2_pos m) + e)).
  assert (He' : -1074 <= e').
  { subst e'. unfold fexp, SpecFloat.emin.
    change prec with 53. change emax with 1024. lia. }
  destruct (e' - e); apply binary_round_aux_pos; lia.
Qed.

Lemma sf_signed_true_not_pos f : sf_signed true f = true -> sf_pos f = false.
Proof. destruct f as [[] | [] | | [] m e]; simpl; congruence. Qed.

(** The difference of two valid positive numbers is positive exactly
    when the first is the larger. *)
Lemma SFsub_pos_finite ma ea mb eb :
  valid_binary (S754_finite false ma ea) = true ->
  valid_binary (S754_finite false mb eb) = true ->
  sf_pos (SF64sub (S754_finite false mb eb) (S754_finite false ma ea))
  = SFltb (S754_finite false ma ea) (S754_finite false mb eb).
Proof.
  intros Va Vb. unfold SFltb. rewrite (SFcompare_aligned _ _ _ _ Va Vb).
  unfold SF64sub, SFsub, cond_Zopp.
  rewrite (Z.min_comm eb ea).
  set (A := Zpos (fst (shl_align ma ea (Z.min ea eb)))).
  set (B := Zpos (fst (shl_align mb eb (Z.min ea eb)))).
  assert (He : -1074 <= Z.min ea eb).
  { apply valid_finite in Va. apply valid_finite in Vb. lia. }
  destruct (Z.compare_spec A B) as [E | L | G].
  - rewrite E, Z.sub_diag. reflexivity.
  - destruct (B - A) as [| p | p] eqn:D; try lia. simpl.
    now apply binary_round_pos.
  - destruct (B - A) as [| p | p] eqn:D; try lia. simpl.
    apply sf_signed_true_not_pos, binary_round_signed.
Qed.

Local Close Scope Z_scope.

Lemma sub_pos_iff_ltb a b :
  sf_plus (Prim2SF a) = true -> sf_plus (Prim2SF b) = true ->
  (0 <? b - a) = (a <? b).
Proof.
  intros Ha Hb. rewrite ltb_0_pos, sub_spec, FloatAxioms.ltb_spec.
  pose proof (Prim2SF_valid a) as Va. pose proof (Prim2SF_valid b) as Vb.
  destruct (Prim2SF a) as [[] | [] | | [] ma ea]; try discriminate;
    destruct (Prim2SF b) as [[] | [] | | [] mb eb]; try discriminate;
    try reflexivity.
  now apply SFsub_pos_finite.
Qed.

(** ** Filtering and summing *)

Lemma is_type_true ty t : is_type ty t = true <-> Transaction.type t = ty.
Proof.
  unfold is_type. destruct (Transaction.type t), ty; simpl;
    split; congruence.
Qed.

Lemma fold_amounts_total_from P P_dec (p : Transaction.t -> bool) :
  (forall t, p t = true <-> P t) ->
  forall transactions acc,
    fold_left (fun sum t => sum + Transaction.amount t)
              (filter p transactions) acc
    = total_from P P_dec acc transactions.
Proof.
  intros Hp. induction transactions as [| t rest IH]; intros acc; simpl.
  - reflexivity.
  - destruct (P_dec t) as [Ht | Ht].
    + apply Hp in Ht. rewrite Ht. simpl. apply IH.
    + destruct (p t) eqn:E; [apply Hp in E; contradiction | apply IH].
Qed.

Lemma sum_amounts_total_where P P_dec (p : Transaction.t -> bool) :
  (forall t, p t = true <-> P t) ->
  forall transactions,
    sum_amounts p transactions = total_where P P_dec transactions.
Proof.
  intros Hp transactions. apply fold_amounts_total_from, Hp.
Qed.

Lemma sum_amounts_filter p q transactions :
  sum_amounts p (filter q transactions)
  = sum_amounts (fun t => q t && p t) transactions.
Proof.
  unfold sum_amounts. f_equal.
  induction transactions as [| t rest IH]; simpl; [reflexivity |].
  destruct (q t); simpl; [destruct (p t) |]; simpl; congruence.
Qed.

Lemma sum_amounts_fold_map p transactions :
  sum_amounts p transactions
  = fold_left (fun sum v => sum + v)
              (map Transaction.amount (filter p transactions)) 0.
Proof.
  unfold sum_amounts. generalize 0.
  induction (filter p transactions) as [| t rest IH]; intros acc; simpl;
    [reflexivity | apply IH].
Qed.

Lemma total_from_none P P_dec transactions acc :
  (forall t, In t transactions -> ~ P t) ->
  total_from P P_dec acc transactions = acc.
Proof.
  revert acc. induction transactions as [| t rest IH]; intros acc H; simpl.
  - reflexivity.
  - destruct (P_dec t) as [Ht | _].
    + exfalso. apply (H t); [left; reflexivity | exact Ht].
    + apply IH. intros t' Hin. apply H. right. exact Hin.
Qed.

(** ** Period summary *)

Lemma month_filter_in_month month ty t :
  String.prefix month (Transaction.date t) && is_type ty t = true
  <-> in_month month ty t.
Proof.
  unfold in_month. rewrite andb_true_iff, is_type_true. tauto.
Qed.

Lemma sum_amounts_month_amounts month ty transactions :
  sum_amounts (fun t => String.prefix month (Transaction.date t)
                        && is_type ty t) transactions
  = fold_left (fun sum v => sum + v) (month_amounts month ty transactions) 0.
Proof.
  rewrite sum_amounts_fold_map. unfold month_amounts. do 2 f_equal.
  apply filter_ext. intros t.
  pose proof (month_filter_in_month month ty t) as H.
  destruct (in_month_dec month ty t) as [Hin | Hout].
  - now apply H.
  - destruct (_ && _); [exfalso; apply Hout, H; reflexivity | reflexivity].
Qed.

(** C6, as stated, fails: the sums are binary64 sums taken in the order
    of the list, and permuting three incomes of one month changes the
    income of the summary. *)
Lemma calculateSummary_order_dependent :
  let t1 := Transaction.mk "t1" "2024-05-01" "salary" 0.1 Income None in
  let t2 := Transaction.mk "t2" "2024-05-02" "salary" 0.2 Income None in
  let t3 := Transaction.mk "t3" "2024-05-03" "salary" 0.3 Income None in
  Permutation [t1; t2; t3] [t3; t2; t1]
  /\ FinanceTracker.income
       (FinanceTracker.calculateSummary "2024-05" [t1; t2; t3])
     = 0.6000000000000001
  /\ FinanceTracker.income
       (FinanceTracker.calculateSummary "2024-05" [t3; t2; t1])
     = 0.6
  /\ FinanceTracker.calculateSummary "2024-05" [t1; t2; t3]
     <> FinanceTracker.calculateSummary "2024-05" [t3; t2; t1].
Proof.
  intros t1 t2 t3. split; [| split; [reflexivity | split; [reflexivity |]]].
  - apply perm_trans with [t2; t3; t1].
    + apply perm_trans with [t2; t1; t3];
        [apply perm_swap | apply perm_skip, perm_swap].
    + apply perm_swap.
  - intros E. apply (f_equal FinanceTracker.income) in E.
    vm_compute in E. discriminate E.
Qed.

(** C6, amended.  [income] and [expenses] are the sums of the amounts
    of the month's income and expense transactions, taken in the order of
    the list; [balance] is [income - expenses]; for no transactions all
    three are 0; and the summary only depends on the sequence of the
    month's income amounts and the sequence of the month's expense
    amounts, so that it does not change when transactions of different
    kinds or of other months change places. *)
Theorem calculateSummary_contract currentMonth transactions :
  let s := FinanceTracker.calculateSummary currentMonth transactions in
  FinanceTracker.income s
  = total_where (in_month currentMonth Income)
                (in_month_dec currentMonth Income) transactions
  /\ FinanceTracker.expenses s
     = total_where (in_month currentMonth Expense)
                   (in_month_dec currentMonth Expense) transactions
  /\ FinanceTracker.balance s
     = FinanceTracker.income s - FinanceTracker.expenses s
  /\ FinanceTracker.calculateSummary currentMonth []
     = FinanceTracker.mkSummary 0 0 0
  /\ (forall transactions',
         month_amounts currentMonth Income transactions'
         = month_amounts currentMonth Income transactions ->
         month_amounts currentMonth Expense transactions'
         = month_amounts currentMonth Expense transactions ->
         FinanceTracker.calculateSummary currentMonth transactions' = s).
Proof.
  unfold FinanceTracker.calculateSummary. simpl.
  rewrite !sum_amounts_filter.
  split; [| split; [| split; [| split]]].
  - apply sum_amounts_total_where, month_filter_in_month.
  - apply sum_amounts_total_where, month_filter_in_month.
  - reflexivity.
  - reflexivity.
  - intros transactions' Hi He.
    rewrite !sum_amounts_filter, !sum_amounts_month_amounts, Hi, He.
    reflexivity.
Qed.

(** The example of the specification, and the same transactions with an
    expense of another month in between and the two of May exchanged. *)
Lemma calculateSummary_contract_witness :
  let t1 := Transaction.mk "t1" "2024-05-01" "food" 1000 Expense None in
  let t2 := Transaction.mk "t2" "2024-05-02" "salary" 5000 Income None in
  let t3 := Transaction.mk "t3" "2024-04-30" "food" 70 Expense None in
  FinanceTracker.calculateSummary "2024-05" [t1; t2]
  = FinanceTracker.mkSummary 5000 1000 4000
  /\ FinanceTracker.calculateSummary "2024-05" [t2; t3; t1]
     = FinanceTracker.calculateSummary "2024-05" [t1; t2].
Proof.
  intros t1 t2 t3. split; [reflexivity |].
  destruct (calculateSummary_contract "2024-05" [t1; t2])
    as [_ [_ [_ [_ H]]]].
  apply H; reflexivity.
Defined.

(** ** Category totals *)

Lemma get_set_same obj k v : JSObject.get (JSObject.set obj k v) k = Some v.
Proof.
  induction obj as [| [k' w] rest IH]; simpl.
  - now rewrite String.eqb_refl.
  - destruct (String.eqb_spec k' k) as [-> | Hne]; simpl.
    + now rewrite String.eqb_refl.
    + apply String.eqb_neq in Hne. now rewrite Hne.
Qed.

Lemma get_set_other obj k v k' :
  k <> k' -> JSObject.get (JSObject.set obj k v) k' = JSObject.get obj k'.
Proof.
  intros Hne. induction obj as [| [k0 w] rest IH]; simpl.
  - apply String.eqb_neq in Hne. now rewrite Hne.
  - destruct (String.eqb_spec k0 k) as [-> | Hne0]; simpl.
    + apply String.eqb_neq in Hne. now rewrite Hne.
    + now rewrite IH.
Qed.

Lemma set_keys obj k v :
  map fst (JSObject.set obj k v)
  = match JSObject.get obj k with
    | Some _ => map fst obj
    | None => map fst obj ++ [k]
    end.
Proof.
  induction obj as [| [k' w] rest IH]; simpl; [reflexivity |].
  destruct (String.eqb_spec k' k) as [-> | Hne]; simpl; [reflexivity |].
  rewrite IH. destruct (JSObject.get rest k); reflexivity.
Qed.

Lemma get_none_not_key obj k :
  JSObject.get obj k = None <-> ~ In k (map fst obj).
Proof.
  induction obj as [| [k' w] rest IH]; simpl; [tauto |].
  destruct (String.eqb_spec k' k) as [-> | Hne].
  - split; [discriminate | tauto].
  - rewrite IH. tauto.
Qed.

Lemma set_keys_NoDup obj k v :
  NoDup (map fst obj) -> NoDup (map fst (JSObject.set obj k v)).
Proof.
  intros H. rewrite set_keys.
  destruct (JSObject.get obj k) eqn:E; [exact H |].
  apply get_none_not_key in E.
  apply NoDup_rev in H. rewrite <- (rev_involutive (_ ++ _)).
  apply NoDup_rev. rewrite rev_app_distr. simpl.
  constructor; [rewrite <- in_rev; exact E | exact H].
Qed.

Lemma in_get obj k v :
  NoDup (map fst obj) -> (In (k, v) obj <-> JSObject.get obj k = Some v).
Proof.
  induction obj as [| [k' w] rest IH]; simpl; intros Hnd.
  - split; [tauto | discriminate].
  - inversion Hnd as [| ? ? Hnotin Hnd']; subst.
    destruct (String.eqb_spec k' k) as [-> | Hne].
    + split.
      * intros [[= ->] | Hin]; [reflexivity |].
        exfalso. apply Hnotin. apply (in_map fst) in Hin. exact Hin.
      * intros [= ->]. left. reflexivity.
    + rewrite <- (IH Hnd'). split; [| tauto].
      intros [[= E _] | Hin]; [contradiction | exact Hin].
Qed.

Lemma add_to_category_plus acc t :
  all_plus acc -> (0 <=? Transaction.amount t) = true ->
  all_plus (ExpenseChart.add_to_category acc t)
  /\ JSObject.get (ExpenseChart.add_to_category acc t)
                  (Transaction.category t)
     = Some (match JSObject.get acc (Transaction.category t) with
             | Some a => a
             | None => 0
             end + Transaction.amount t).
Proof.
  intros Hacc Ht. unfold ExpenseChart.add_to_category.
  assert (Hv : JS.or_else (JSObject.get acc (Transaction.category t)) 0
               = match JSObject.get acc (Transaction.category t) with
                 | Some a => a
                 | None => 0
                 end).
  { destruct (JSObject.get acc (Transaction.category t)) as [a |] eqn:E;
      [apply or_else_plus, (Hacc _ _ E) | reflexivity]. }
  rewrite Hv. split; [| apply get_set_same].
  intros k v. destruct (string_dec (Transaction.category t) k) as [<- | Hne].
  - rewrite get_set_same. intros [= <-].
    apply add_plus_nonneg; [| exact Ht].
    destruct (JSObject.get acc (Transaction.category t)) as [a |] eqn:E;
      [apply (Hacc _ _ E) | apply sf_plus_0].
  - rewrite get_set_other by exact Hne. apply Hacc.
Qed.

(** The value that the [reduce] leaves under a key. *)
Lemma fold_add_to_category_get c expenses :
  forall acc,
    all_plus acc ->
    (forall t, In t expenses -> (0 <=? Transaction.amount t) = true) ->
    all_plus (fold_left ExpenseChart.add_to_category expenses acc)
    /\ JSObject.get (fold_left ExpenseChart.add_to_category expenses acc) c
       = match JSObject.get acc c with
         | Some a => Some (category_sum c a expenses)
         | None =>
             if existsb (fun t => (Transaction.category t =? c)%string)
                        expenses
             then Some (category_sum c 0 expenses)
             else None
         end.
Proof.
  induction expenses as [| t rest IH]; intros acc Hacc Hamt.
  - simpl. split; [exact Hacc |]. destruct (JSObject.get acc c); reflexivity.
  - destruct (add_to_category_plus acc t Hacc (Hamt t (or_introl eq_refl)))
      as [Hacc' Hget].
    destruct (IH _ Hacc' (fun t' H => Hamt t' (or_intror H)))
      as [Hall Hc].
    split; [exact Hall |]. simpl fold_left. rewrite Hc.
    unfold category_sum. simpl existsb. simpl fold_left.
    destruct (String.eqb_spec (Transaction.category t) c) as [E | Hne].
    + subst c. rewrite Hget.
      destruct (JSObject.get acc (Transaction.category t)); reflexivity.
    + unfold ExpenseChart.add_to_category at 1.
      rewrite get_set_other by exact Hne.
      destruct (JSObject.get acc c); reflexivity.
Qed.

Lemma fold_add_to_category_NoDup expenses :
  forall acc,
    NoDup (map fst acc) ->
    NoDup (map fst (fold_left ExpenseChart.add_to_category expenses acc)).
Proof.
  induction expenses as [| t rest IH]; intros acc H; simpl; [exact H |].
  apply IH. unfold ExpenseChart.add_to_category. now apply set_keys_NoDup.
Qed.

Lemma monthExpenses_in month transactions t :
  In t (ExpenseChart.monthExpenses month transactions)
  <-> In t transactions /\ in_month month Expense t.
Proof.
  unfold ExpenseChart.monthExpenses, in_month.
  rewrite filter_In, andb_true_iff, is_type_true. tauto.
Qed.

Lemma category_sum_monthExpenses month c transactions :
  forall acc,
    category_sum c acc (ExpenseChart.monthExpenses month transactions)
    = total_from (expense_of month c) (expense_of_dec month c) acc
                 transactions.
Proof.
  unfold category_sum, ExpenseChart.monthExpenses.
  induction transactions as [| t rest IH]; intros acc; simpl;
    [reflexivity |].
  destruct (expense_of_dec month c t) as [[[Hty Hpre] Hcat] | Hno].
  - apply is_type_true in Hty. rewrite Hty, Hpre. simpl.
    apply String.eqb_eq in Hcat. rewrite Hcat. apply IH.
  - destruct (is_type Expense t && _) eqn:E; [| apply IH].
    simpl. destruct (String.eqb_spec (Transaction.category t) c) as [Hc | _];
      [| apply IH].
    exfalso. apply Hno. apply andb_true_iff in E. destruct E as [E1 E2].
    apply is_type_true in E1. repeat split; assumption.
Qed.

(** The totals object: its keys are distinct, and it holds under [c]
    the sum of the month's expenses of category [c], if there is one. *)
Lemma categoryTotals_contract month transactions :
  (forall t, In t transactions -> in_month month Expense t ->
             (0 <=? Transaction.amount t) = true) ->
  let obj := ExpenseChart.categoryTotals
               (ExpenseChart.monthExpenses month transactions) in
  NoDup (map fst obj)
  /\ all_plus obj
  /\ forall c a,
       In (c, a) obj
       <-> (exists t, In t transactions /\ expense_of month c t)
           /\ a = total_where (expense_of month c) (expense_of_dec month c)
                              transactions.
Proof.
  intros Hamt obj. subst obj. unfold ExpenseChart.categoryTotals.
  set (E := ExpenseChart.monthExpenses month transactions).
  assert (Hnd : NoDup (map fst (fold_left ExpenseChart.add_to_category E [])))
    by (apply fold_add_to_category_NoDup; constructor).
  assert (Hempty : all_plus []) by (intros k v; discriminate).
  assert (HE : forall t, In t E -> (0 <=? Transaction.amount t) = true).
  { intros t Ht. apply monthExpenses_in in Ht. destruct Ht. auto. }
  split; [exact Hnd |].
  split; [apply (fold_add_to_category_get EmptyString E [] Hempty HE) |].
  intros c a. rewrite (in_get _ _ _ Hnd).
  destruct (fold_add_to_category_get c E [] Hempty HE) as [_ ->].
  simpl JSObject.get. unfold total_where.
  rewrite <- category_sum_monthExpenses. fold E.
  destruct (existsb _ E) eqn:Ex.
  - apply existsb_exists in Ex. destruct Ex as [t [Ht Hc]].
    apply String.eqb_eq in Hc. apply monthExpenses_in in Ht.
    split.
    + intros [= <-]. split; [| reflexivity].
      exists t. unfold expense_of. tauto.
    + intros [_ ->]. reflexivity.
  - split; [discriminate |]. intros [[t [Ht [Hm Hc]]] _]. exfalso.
    assert (Hin : In t E) by (apply monthExpenses_in; tauto).
    assert (Hex : existsb (fun t => (Transaction.category t =? c)%string) E
                  = true).
    { apply existsb_exists. exists t. split; [exact Hin |].
      now apply String.eqb_eq. }
    congruence.
Qed.

(** ** [Object.entries] and [sort] *)

Lemma insert_index_perm e l :
  Permutation (JSObject.insert_index e l) (e :: l).
Proof.
  induction l as [| e' rest IH]; simpl; [reflexivity |].
  destruct (fst e <=? fst e')%N; [reflexivity |].
  rewrite IH. apply perm_swap.
Qed.

Lemma sort_index_perm l :
  Permutation (fold_right JSObject.insert_index [] l) l.
Proof.
  induction l as [| e rest IH]; simpl; [reflexivity |].
  rewrite insert_index_perm. now apply perm_skip.
Qed.

Lemma entries_perm obj : Permutation (JSObject.entries obj) obj.
Proof.
  unfold JSObject.entries.
  rewrite (Permutation_map snd (sort_index_perm (JSObject.indexed obj))).
  unfold JSObject.indexed, JSObject.named.
  induction obj as [| kv rest IH]; simpl; [reflexivity |].
  destruct (JSObject.array_index (fst kv)); simpl.
  - now apply perm_skip.
  - rewrite <- Permutation_middle. now apply perm_skip.
Qed.

Section SortFacts.

Context {A : Type}.
Variable compareFn : A -> A -> float.

Lemma sort_insert_perm a l :
  Permutation (sort_insert compareFn a l) (a :: l).
Proof.
  induction l as [| b rest IH]; simpl; [reflexivity |].
  destruct (0 <? compareFn a b); [| reflexivity].
  rewrite IH. apply perm_swap.
Qed.

Lemma array_sort_perm l : Permutation (array_sort compareFn l) l.
Proof.
  induction l as [| a rest IH]; simpl; [reflexivity |].
  rewrite sort_insert_perm. now apply perm_skip.
Qed.

(** The sort leaves the list sorted for every relation [R] that the
    comparator decides on the elements of the list. *)
Variable R : A -> A -> Prop.
Variable ok : A -> Prop.
Hypothesis after : forall a b, ok a -> ok b ->
  (0 <? compareFn a b) = true -> R b a.
Hypothesis before : forall a b, ok a -> ok b ->
  (0 <? compareFn a b) = false -> R a b.

Lemma sort_insert_sorted a l :
  ok a -> Forall ok l -> Sorted R l -> Sorted R (sort_insert compareFn a l).
Proof.
  intros Ha. induction l as [| b rest IH]; intros Hok Hs; simpl.
  - repeat constructor.
  - inversion Hok as [| ? ? Hb Hrest]; subst.
    inversion Hs as [| ? ? Hs' Hhd]; subst.
    destruct (0 <? compareFn a b) eqn:E.
    + constructor; [now apply IH |].
      destruct rest as [| c rest']; simpl.
      * constructor. now apply after.
      * destruct (0 <? compareFn a c).
        -- constructor. now inversion Hhd.
        -- constructor. now apply after.
    + constructor; [exact Hs |]. constructor. now apply before.
Qed.

Lemma array_sort_sorted l : Forall ok l -> Sorted R (array_sort compareFn l).
Proof.
  induction l as [| a rest IH]; intros Hok; simpl; [constructor |].
  inversion Hok; subst.
  apply sort_insert_sorted; auto.
  apply (Permutation_Forall (Permutation_sym (array_sort_perm rest))).
  assumption.
Qed.

End SortFacts.

Lemma by_amount_desc_after a b :
  sf_plus (Prim2SF (ChartItem.amount a)) = true ->
  sf_plus (Prim2SF (ChartItem.amount b)) = true ->
  (0 <? ExpenseChart.by_amount_desc a b) = true -> amount_desc b a.
Proof.
  intros Ha Hb. unfold ExpenseChart.by_amount_desc, amount_desc.
  rewrite (sub_pos_iff_ltb _ _ Ha Hb). apply ltb_leb.
Qed.

Lemma by_amount_desc_before a b :
  sf_plus (Prim2SF (ChartItem.amount a)) = true ->
  sf_plus (Prim2SF (ChartItem.amount b)) = true ->
  (0 <? ExpenseChart.by_amount_desc a b) = false -> amount_desc a b.
Proof.
  intros Ha Hb. unfold ExpenseChart.by_amount_desc, amount_desc.
  rewrite (sub_pos_iff_ltb _ _ Ha Hb).
  apply ltb_false_leb; now apply sf_plus_not_nan.
Qed.

(** ** Expense breakdown *)

Lemma fold_amounts_map (items : list ChartItem.t) :
  forall acc,
    fold_left (fun sum item => sum + ChartItem.amount item) items acc
    = fold_left (fun sum v => sum + v) (map ChartItem.amount items) acc.
Proof.
  induction items as [| item rest IH]; intros acc; simpl;
    [reflexivity | apply IH].
Qed.

Lemma in_entries_items c a (entries : list (string * float)) :
  In (ChartItem.mk c a 0)
     (map (fun '(category, amount) => ChartItem.mk category amount 0) entries)
  <-> In (c, a) entries.
Proof.
  rewrite in_map_iff. split.
  - intros [[c' a'] [[= -> ->] Hin]]. exact Hin.
  - intros Hin. exists (c, a). split; [reflexivity | exact Hin].
Qed.

Lemma entries_items_category (entries : list (string * float)) :
  map ChartItem.category
      (map (fun '(category, amount) => ChartItem.mk category amount 0) entries)
  = map fst entries.
Proof.
  rewrite map_map. apply map_ext. intros [c a]. reflexivity.
Qed.

(** C1, as stated, fails.  Seven categories with an expense of 10 each:
    the month's total expenses are 70, and [10 / 70 * 100] is 14.3 to
    one decimal; the chart keeps six categories and gives each the text
    "16.7", which is [10 / 60 * 100]: the share of the six that are
    kept. *)
Lemma expenseChart_percentage_counterexample :
  let expense c := Transaction.mk c "2024-05-03" c 10 Expense None in
  let transactions :=
    map expense ["a"; "b"; "c"; "d"; "e"; "f"; "g"]%string in
  let slice c := ChartSlice.mk c 10 (Some "16.7"%string) in
  let total := month_total_expenses "2024-05" transactions in
  total = 70
  /\ JS.toFixed1 ((10 / total) * 100) = Some "14.3"%string
  /\ option_map ExpenseChart.dataWithPercentages
       (ExpenseChart.chartData "2024-05" transactions)
     = Some (map slice ["a"; "b"; "c"; "d"; "e"; "f"]%string)
  /\ forall s, In s (map slice ["a"; "b"; "c"; "d"; "e"; "f"]%string) ->
       ChartSlice.percentage s
       <> JS.toFixed1 ((ChartSlice.amount s / total) * 100).
Proof.
  intros expense transactions slice total.
  assert (Ht : total = 70) by reflexivity.
  split; [exact Ht |]. rewrite Ht.
  split; [reflexivity |]. split; [reflexivity |].
  intros s Hs. simpl in Hs.
  repeat (destruct Hs as [<- | Hs]; [vm_compute; discriminate |]).
  destruct Hs.
Qed.

(** C1, amended.  When the categories of the month's expenses are not
    names inherited from [Object.prototype] and the amounts are not
    negative, [chartData] is the first six elements of a list that holds
    one item for every category with an expense in the month; the amount
    of the item is the sum of the category's expenses of the month; the
    list is sorted by amount, descending.  [dataWithPercentages] gives
    each of the (at most six) kept items the text
    [(amount / T * 100).toFixed(1)], where [T] is the sum of the amounts
    of the kept items, and the text "0" when [T] is not positive. *)
Theorem expenseChart_contract currentMonth transactions :
  (forall t, In t transactions -> in_month currentMonth Expense t ->
             JSObject.inherited (Transaction.category t) = false
             /\ (0 <=? Transaction.amount t) = true) ->
  exists all,
    ExpenseChart.chartData currentMonth transactions = Some (firstn 6 all)
    /\ (forall c a,
          In (ChartItem.mk c a 0) all
          <-> (exists t, In t transactions /\ expense_of currentMonth c t)
              /\ a = total_where (expense_of currentMonth c)
                                 (expense_of_dec currentMonth c)
                                 transactions)
    /\ (forall item, In item all -> ChartItem.percentage item = 0)
    /\ NoDup (map ChartItem.category all)
    /\ Sorted amount_desc all
    /\ (List.length (firstn 6 all) <= 6)%nat
    /\ let items := firstn 6 all in
       let T := fold_left (fun sum v => sum + v)
                          (map ChartItem.amount items) 0 in
       ExpenseChart.dataWithPercentages items
       = map (fun item =>
                ChartSlice.mk (ChartItem.category item)
                  (ChartItem.amount item)
                  (if 0 <? T
                   then JS.toFixed1 ((ChartItem.amount item / T) * 100)
                   else Some "0"%string))
             items.
Proof.
  intros H.
  set (E := ExpenseChart.monthExpenses currentMonth transactions).
  set (obj := ExpenseChart.categoryTotals E).
  set (items :=
         map (fun '(category, amount) => ChartItem.mk category amount 0)
             (JSObject.entries obj)).
  exists (array_sort ExpenseChart.by_amount_desc items).
  destruct (categoryTotals_contract currentMonth transactions
              (fun t Ht Hm => proj2 (H t Ht Hm)))
    as [Hnd [Hplus Hin]].
  fold E in Hnd, Hplus, Hin. fold obj in Hnd, Hplus, Hin.
  pose proof (array_sort_perm ExpenseChart.by_amount_desc items) as Hperm.
  split; [| split; [| split; [| split; [| split; [| split]]]]].
  - unfold ExpenseChart.chartData. fold E.
    replace (existsb _ E) with false; [reflexivity |].
    symmetry. apply not_true_is_false. intros Hex.
    apply existsb_exists in Hex. destruct Hex as [t [Ht Hinh]].
    apply monthExpenses_in in Ht. destruct Ht as [Ht Hm].
    destruct (H t Ht Hm) as [Hno _]. congruence.
  - intros c a. rewrite <- Hin. split; intros Hc.
    + apply (Permutation_in _ Hperm) in Hc.
      apply in_entries_items in Hc.
      exact (Permutation_in _ (entries_perm obj) Hc).
    + apply (Permutation_in _ (Permutation_sym Hperm)).
      apply in_entries_items.
      exact (Permutation_in _ (Permutation_sym (entries_perm obj)) Hc).
  - intros item Hitem. apply (Permutation_in _ Hperm) in Hitem.
    apply in_map_iff in Hitem. destruct Hitem as [[c a] [<- _]].
    reflexivity.
  - apply (Permutation_NoDup
             (Permutation_map ChartItem.category (Permutation_sym Hperm))).
    unfold items. rewrite entries_items_category.
    apply (Permutation_NoDup
             (Permutation_map fst (Permutation_sym (entries_perm obj)))).
    exact Hnd.
  - apply (array_sort_sorted ExpenseChart.by_amount_desc amount_desc
             (fun item => sf_plus (Prim2SF (ChartItem.amount item)) = true)).
    + intros a b. apply by_amount_desc_after.
    + intros a b. apply by_amount_desc_before.
    + apply Forall_forall. intros item Hitem.
      apply in_map_iff in Hitem. destruct Hitem as [[c a] [<- Hca]].
      simpl. apply (Hplus c a). apply in_get; [exact Hnd |].
      exact (Permutation_in _ (entries_perm obj) Hca).
  - rewrite length_firstn. apply Nat.le_min_l.
  - intros kept T. unfold ExpenseChart.dataWithPercentages.
    unfold ExpenseChart.totalAmount. rewrite fold_amounts_map.
    reflexivity.
Qed.

(** The example of the specification: one expense of 1000 for food in
    May 2024, which is the whole chart. *)
Lemma expenseChart_contract_witness :
  let transactions :=
    [ Transaction.mk "t1" "2024-05-01" "food" 1000 Expense None;
      Transaction.mk "t2" "2024-05-02" "salary" 5000 Income None ] in
  option_map ExpenseChart.dataWithPercentages
    (ExpenseChart.chartData "2024-05" transactions)
  = Some [ChartSlice.mk "food" 1000 (Some "100.0"%string)]
  /\ exists all,
       ExpenseChart.chartData "2024-05" transactions = Some (firstn 6 all)
       /\ Sorted amount_desc all
       /\ In (ChartItem.mk "food" 1000 0) all.
Proof.
  intros transactions. split; [reflexivity |].
  destruct (expenseChart_contract "2024-05" transactions)
    as [all [Hdata [Hin [_ [_ [Hsorted _]]]]]].
  - intros t [<- | [<- | []]] _; split; reflexivity.
  - exists all. split; [exact Hdata | split; [exact Hsorted |]].
    apply Hin. split; [| reflexivity].
    eexists. split; [left; reflexivity |].
    repeat split; reflexivity.
Defined.

(** ** Time series *)

Lemma on_day_filter day ty t :
  (Transaction.date t =? day)%string && is_type ty t = true
  <-> on_day day ty t.
Proof.
  unfold on_day. rewrite andb_true_iff, is_type_true, String.eqb_eq. tauto.
Qed.

Lemma bucket_contract today transactions i :
  let day := (today - 29 + Z.of_nat i)%Z in
  let b := TrendChart.bucket today transactions i in
  TrendChart.date b = Day.format_yyyy_MM_dd day
  /\ TrendChart.income b
     = total_where (on_day (TrendChart.date b) Income)
                   (on_day_dec (TrendChart.date b) Income) transactions
  /\ TrendChart.expenses b
     = total_where (on_day (TrendChart.date b) Expense)
                   (on_day_dec (TrendChart.date b) Expense) transactions
  /\ TrendChart.balance b = TrendChart.income b - TrendChart.expenses b.
Proof.
  intros day b. subst b. unfold TrendChart.bucket, Day.subDays.
  replace (today - (29 - Z.of_nat i))%Z with day by (subst day; lia).
  cbn [TrendChart.date TrendChart.income TrendChart.expenses
       TrendChart.balance].
  rewrite !sum_amounts_filter.
  repeat split; apply sum_amounts_total_where, on_day_filter.
Qed.

(** C7.  [chartData] has exactly 30 buckets, whatever the transactions.
    Bucket [i] is the calendar day [today - 29 + i], so the buckets run
    day by day from [today - 29] up to [today]; its [income] and
    [expenses] are the sums of the amounts of the income and expense
    transactions dated that day, 0 when there are none; and its
    [balance] is [income - expenses]. *)
Theorem trend_chartData_contract today transactions :
  let buckets := TrendChart.chartData today transactions in
  List.length buckets = 30%nat
  /\ map TrendChart.date buckets
     = map (fun i => Day.format_yyyy_MM_dd (today - 29 + Z.of_nat i)%Z)
           (seq 0 30)
  /\ (forall i, (i < 30)%nat ->
        exists b, nth_error buckets i = Some b
        /\ TrendChart.date b
           = Day.format_yyyy_MM_dd (today - 29 + Z.of_nat i)%Z
        /\ TrendChart.income b
           = total_where (on_day (TrendChart.date b) Income)
                         (on_day_dec (TrendChart.date b) Income) transactions
        /\ TrendChart.expenses b
           = total_where (on_day (TrendChart.date b) Expense)
                         (on_day_dec (TrendChart.date b) Expense) transactions
        /\ TrendChart.balance b
           = TrendChart.income b - TrendChart.expenses b
        /\ ((forall t, In t transactions ->
                       Transaction.date t <> TrendChart.date b) ->
            TrendChart.income b = 0 /\ TrendChart.expenses b = 0)).
Proof.
  intros buckets. subst buckets. unfold TrendChart.chartData.
  split; [| split].
  - rewrite length_map, length_seq. reflexivity.
  - rewrite map_map. apply map_ext. intros i.
    apply (bucket_contract today transactions i).
  - intros i Hi.
    exists (TrendChart.bucket today transactions i).
    destruct (bucket_contract today transactions i) as [Hd [Hin [Hex Hb]]].
    split.
    { rewrite nth_error_map, nth_error_seq.
      destruct (Nat.ltb_spec i 30) as [_ | Hge]; [reflexivity | lia]. }
    split; [exact Hd |]. split; [exact Hin |]. split; [exact Hex |].
    split; [exact Hb |].
    intros Hnone. rewrite Hin, Hex. unfold total_where.
    split; apply total_from_none; intros t Ht [_ Hday];
      exact (Hnone t Ht Hday).
Qed.

(** The window that ends on 2024-05-01, for the transactions of the
    specification's example: bucket 29 is that day and holds the
    expense of 1000, bucket 0 is 2024-04-02 and is empty. *)
Lemma trend_chartData_contract_witness :
  let transactions :=
    [ Transaction.mk "t1" "2024-05-01" "food" 1000 Expense None;
      Transaction.mk "t2" "2024-05-02" "salary" 5000 Income None ] in
  let buckets := TrendChart.chartData 19844%Z transactions in
  List.length buckets = 30%nat
  /\ nth_error buckets 29
     = Some (TrendChart.mkBucket "2024-05-01" "01.05" 0 1000 (-1000))
  /\ nth_error buckets 0
     = Some (TrendChart.mkBucket "2024-04-02" "02.04" 0 0 0)
  /\ exists b, nth_error buckets 0 = Some b
               /\ TrendChart.income b = 0 /\ TrendChart.expenses b = 0.
Proof.
  intros transactions buckets.
  destruct (trend_chartData_contract 19844%Z transactions) as [Hlen [_ H]].
  split; [exact Hlen | split; [reflexivity | split; [reflexivity |]]].
  destruct (H 0%nat ltac:(lia)) as [b [Hb [Hd [_ [_ [_ Hempty]]]]]].
  exists b. split; [exact Hb |].
  apply Hempty. intros t Ht. rewrite Hd.
  destruct Ht as [<- | [<- | []]]; discriminate.
Defined.

(** ** Budget utilization *)

Lemma matches_counts_towards budget t :
  BudgetManager.matches budget t = true <-> counts_towards budget t.
Proof.
  unfold BudgetManager.matches, counts_towards.
  rewrite !andb_true_iff, String.eqb_eq, is_type_true. tauto.
Qed.

Lemma budgetAnalysis_elements budgets transactions a :
  In a (BudgetManager.budgetAnalysis budgets transactions) ->
  exists budget,
    In budget budgets /\ a = BudgetManager.analyse transactions budget.
Proof.
  unfold BudgetManager.budgetAnalysis. intros Ha.
  apply in_map_iff in Ha. destruct Ha as [b [<- Hb]]. now exists b.
Qed.

(** C4.  [budgetAnalysis] has one element for every budget, in the
    order of [budgets]: the element at the index of a budget carries
    that budget, its [spent] is the sum of the amounts of the expenses
    of the budget's category dated between [start_date] and [end_date]
    inclusive, [remaining] is [limit_amount - spent], [percentage] is
    [spent / limit_amount * 100], and [isOverBudget] holds exactly when
    [spent > limit_amount]. *)
Theorem budgetAnalysis_contract budgets transactions :
  List.length (BudgetManager.budgetAnalysis budgets transactions)
  = List.length budgets
  /\ forall i budget,
       nth_error budgets i = Some budget ->
       exists a,
         let limit := Budget.limit_amount budget in
         nth_error (BudgetManager.budgetAnalysis budgets transactions) i
         = Some a
         /\ BudgetManager.budget a = budget
         /\ BudgetManager.spent a
            = total_where (counts_towards budget) (counts_towards_dec budget)
                          transactions
         /\ BudgetManager.remaining a = limit - BudgetManager.spent a
         /\ BudgetManager.percentage a = (BudgetManager.spent a / limit) * 100
         /\ (BudgetManager.isOverBudget a = true
             <-> (limit <? BudgetManager.spent a) = true).
Proof.
  unfold BudgetManager.budgetAnalysis. split; [apply length_map |].
  intros i budget Hi.
  exists (BudgetManager.analyse transactions budget).
  split; [rewrite nth_error_map, Hi; reflexivity |].
  simpl. repeat split; auto.
  apply sum_amounts_total_where, matches_counts_towards.
Qed.

(** The budget example of the specification, 1000 spent against a limit
    of 800, followed by a second budget nothing was spent against. *)
Lemma budgetAnalysis_contract_witness :
  let food :=
    Budget.mk "b1" "food" 800 monthly "2024-05-01" "2024-05-31" in
  let rent :=
    Budget.mk "b2" "rent" 900 monthly "2024-05-01" "2024-05-31" in
  let transactions :=
    [ Transaction.mk "t1" "2024-05-01" "food" 1000 Expense None;
      Transaction.mk "t2" "2024-05-02" "salary" 5000 Income None ] in
  let result := BudgetManager.budgetAnalysis [food; rent] transactions in
  List.length result = 2%nat
  /\ (exists a, nth_error result 0 = Some a
                /\ BudgetManager.budget a = food
                /\ BudgetManager.spent a = 1000
                /\ BudgetManager.remaining a = -200
                /\ BudgetManager.percentage a = 125
                /\ BudgetManager.isOverBudget a = true)
  /\ (exists a, nth_error result 1 = Some a
                /\ BudgetManager.budget a = rent
                /\ BudgetManager.spent a = 0
                /\ BudgetManager.remaining a = 900
                /\ BudgetManager.isOverBudget a = false).
Proof.
  intros food rent transactions result.
  destruct (budgetAnalysis_contract [food; rent] transactions) as [Hlen H].
  split; [exact Hlen |]. split.
  - destruct (H 0%nat food eq_refl) as [a [Ha [Hb [_ [_ [_ Hover]]]]]].
    exists a. split; [exact Ha | split; [exact Hb |]].
    injection Ha as <-.
    split; [reflexivity | split; [reflexivity | split; [reflexivity |]]].
    apply Hover. reflexivity.
  - destruct (H 1%nat rent eq_refl) as [a [Ha [Hb _]]].
    exists a. split; [exact Ha | split; [exact Hb |]].
    injection Ha as <-. repeat split; reflexivity.
Defined.

(** C5.  In every element of [budgetAnalysis], [isNearLimit] is
    [percentage > 80 && !isOverBudget], and the two flags are never both
    set. *)
Theorem budgetAnalysis_flags budgets transactions a :
  In a (BudgetManager.budgetAnalysis budgets transactions) ->
  BudgetManager.isNearLimit a
  = (80 <? BudgetManager.percentage a) && negb (BudgetManager.isOverBudget a)
  /\ ~ (BudgetManager.isOverBudget a = true
        /\ BudgetManager.isNearLimit a = true).
Proof.
  intros Ha. apply budgetAnalysis_elements in Ha.
  destruct Ha as [b [Hb ->]]. simpl.
  split; [reflexivity |].
  intros [Hover Hnear]. rewrite Hover in Hnear.
  rewrite andb_false_r in Hnear. discriminate.
Qed.

Lemma budgetAnalysis_flags_witness :
  let budget :=
    Budget.mk "b1" "food" 1100 monthly "2024-05-01" "2024-05-31" in
  let transactions :=
    [ Transaction.mk "t1" "2024-05-01" "food" 1000 Expense None;
      Transaction.mk "t2" "2024-05-02" "salary" 5000 Income None ] in
  let a := BudgetManager.analyse transactions budget in
  In a (BudgetManager.budgetAnalysis [budget] transactions)
  /\ BudgetManager.isNearLimit a = true
  /\ BudgetManager.isOverBudget a = false
  /\ ~ (BudgetManager.isOverBudget a = true
        /\ BudgetManager.isNearLimit a = true).
Proof.
  intros budget transactions a.
  assert (Ha : In a (BudgetManager.budgetAnalysis [budget] transactions))
    by (left; reflexivity).
  destruct (budgetAnalysis_flags [budget] transactions a Ha) as [_ Hexcl].
  split; [exact Ha | split; [reflexivity | split; [reflexivity | exact Hexcl]]].
Defined.

(** ** Goal progress *)

(** C9.  For a goal with a positive finite [target_amount] and a
    non-negative [current_amount], the progress percentage is
    [min(current_amount / target_amount * 100, 100)] and lies between 0
    and 100, also when [current_amount] exceeds [target_amount]. *)
Theorem getProgressPercentage_range goal :
  (0 <? FinancialGoal.target_amount goal) = true ->
  is_finite (FinancialGoal.target_amount goal) = true ->
  (0 <=? FinancialGoal.current_amount goal) = true ->
  let p := FinancialGoals.getProgressPercentage goal in
  p = JS.min ((FinancialGoal.current_amount goal
               / FinancialGoal.target_amount goal) * 100) 100
  /\ (0 <=? p) = true
  /\ (p <=? 100) = true.
Proof.
  intros Ht Hfin Hc. split; [reflexivity |].
  apply min_bounds; [| reflexivity].
  apply mul_100_nonneg, div_nonneg; assumption.
Qed.

Lemma getProgressPercentage_range_witness :
  let goal := FinancialGoal.mk "g1" "Vacation" 10000 10500 None None true in
  (0 <? FinancialGoal.target_amount goal) = true
  /\ FinancialGoals.getProgressPercentage goal = 100
  /\ (0 <=? FinancialGoals.getProgressPercentage goal) = true
  /\ (FinancialGoals.getProgressPercentage goal <=? 100) = true.
Proof.
  intros goal.
  destruct (getProgressPercentage_range goal
              ltac:(reflexivity) ltac:(reflexivity) ltac:(reflexivity))
    as [H1 [H2 H3]].
  split; [reflexivity | split; [reflexivity | split; [exact H2 | exact H3]]].
Defined.

(** ** Sums of non-negative amounts *)

(** Adding a non-negative number to [+0], a positive number or
    [+infinity] gives a positive result exactly when one of the two is
    positive. *)
Lemma add_plus_pos a x :
  sf_plus (Prim2SF a) = true -> (0 <=? x) = true ->
  (0 <? a + x) = (0 <? a) || (0 <? x).
Proof.
  rewrite leb_0_nonneg, !ltb_0_pos, add_spec. intros Ha Hx.
  pose proof (Prim2SF_valid a) as Va. pose proof (Prim2SF_valid x) as Vx.
  destruct (Prim2SF a) as [[] | [] | | [] ma ea]; try discriminate;
    destruct (Prim2SF x) as [[] | [] | | [] mx ex]; try discriminate;
    try reflexivity.
  unfold SF64add, SFadd, cond_Zopp, binary_normalize.
  match goal with
  | |- context [(Zpos ?p + Zpos ?q)%Z] =>
      change (Zpos p + Zpos q)%Z with (Zpos (p + q))
  end.
  apply valid_finite in Va. apply valid_finite in Vx.
  simpl. apply binary_round_pos. lia.
Qed.

Section FoldPlus.

Variable A : Type.
Variable amount : A -> float.

Lemma fold_amounts_plus (l : list A) :
  forall acc,
    sf_plus (Prim2SF acc) = true ->
    (forall t, In t l -> (0 <=? amount t) = true) ->
    sf_plus (Prim2SF (fold_left (fun sum t => sum + amount t) l acc)) = true
    /\ (0 <? fold_left (fun sum t => sum + amount t) l acc)
       = (0 <? acc) || existsb (fun t => 0 <? amount t) l.
Proof.
  induction l as [| t rest IH]; intros acc Hacc Hl; simpl.
  - split; [exact Hacc | now rewrite orb_false_r].
  - assert (Ht : (0 <=? amount t) = true) by (apply Hl; left; reflexivity).
    destruct (IH (acc + amount t)
                 (add_plus_nonneg _ _ Hacc Ht)
                 (fun t' H => Hl t' (or_intror H))) as [Hp Hs].
    split; [exact Hp |].
    rewrite Hs, (add_plus_pos _ _ Hacc Ht). now rewrite orb_assoc.
Qed.

End FoldPlus.

(** A sum of non-negative amounts is [+0], positive or [+infinity], and
    it is positive exactly when one of the amounts is. *)
Lemma sum_amounts_nonneg p transactions :
  (forall t, In t transactions -> p t = true ->
             (0 <=? Transaction.amount t) = true) ->
  sf_plus (Prim2SF (sum_amounts p transactions)) = true
  /\ (0 <? sum_amounts p transactions)
     = existsb (fun t => p t && (0 <? Transaction.amount t)) transactions.
Proof.
  intros H. unfold sum_amounts.
  destruct (fold_amounts_plus _ Transaction.amount (filter p transactions) 0
              sf_plus_0) as [Hp Hs].
  { intros t Ht. apply filter_In in Ht. destruct Ht. auto. }
  split; [exact Hp |]. rewrite Hs. simpl.
  clear. induction transactions as [| t rest IH]; simpl; [reflexivity |].
  destruct (p t); simpl; now rewrite IH.
Qed.


(** ** Denominators *)

(** The utilization of a budget that the table can hold: with a
    positive finite limit and non-negative expenses neither [spent] nor
    [percentage] is negative. *)
Lemma analyse_nonneg transactions budget :
  check_limit_amount budget ->
  is_finite (Budget.limit_amount budget) = true ->
  (forall t, In t transactions -> counts_towards budget t ->
             (0 <=? Transaction.amount t) = true) ->
  let a := BudgetManager.analyse transactions budget in
  sf_plus (Prim2SF (BudgetManager.spent a)) = true
  /\ (0 <=? BudgetManager.spent a) = true
  /\ (0 <=? BudgetManager.percentage a) = true.
Proof.
  intros Hpos Hfin Hamt. simpl.
  destruct (sum_amounts_nonneg (BudgetManager.matches budget) transactions)
    as [Hplus _].
  { intros t Ht Hm. apply (Hamt t Ht). now apply matches_counts_towards. }
  assert (Hspent : (0 <=? sum_amounts (BudgetManager.matches budget)
                            transactions) = true)
    by (rewrite leb_0_nonneg; now apply sf_plus_nonneg).
  split; [exact Hplus | split; [exact Hspent |]].
  apply mul_100_nonneg, div_nonneg; assumption.
Qed.





(** ** Progress mutation *)

Lemma find_none_iff goalId (goals : list FinancialGoal.t) :
  find (fun g => (FinancialGoal.id g =? goalId)%string) goals = None
  <-> forall g, In g goals -> FinancialGoal.id g <> goalId.
Proof.
  split.
  - intros H g Hin E.
    apply (find_none _ _ H) in Hin. apply String.eqb_neq in Hin. auto.
  - intros H. induction goals as [| g rest IH]; simpl; [reflexivity |].
    destruct (String.eqb_spec (FinancialGoal.id g) goalId) as [E | _].
    + exfalso. apply (H g); [left; reflexivity | exact E].
    + apply IH. intros g' Hin. apply H. right. exact Hin.
Qed.

(** C10.  When no goal of the component's list has the given id,
    [updateGoalProgress] returns at once: no update request is sent, no
    toast is shown, and neither the list nor any row changes. *)
Theorem updateGoalProgress_unknown_id be goalId amount st :
  (forall g, In g (FinancialGoals.goals st) -> FinancialGoal.id g <> goalId) ->
  FinancialGoals.updateGoalProgress be goalId amount st = st.
Proof.
  intros H. apply find_none_iff in H.
  unfold FinancialGoals.updateGoalProgress. rewrite H. reflexivity.
Qed.

Lemma updateGoalProgress_unknown_id_witness :
  let g := FinancialGoal.mk "g1" "Vacation" 10000 9500 None None false in
  let st := FinancialGoals.mkState [g] [g] [] [] in
  let st' := FinancialGoals.updateGoalProgress
               (FinancialGoals.mkBackend true true) "g2" 1000 st in
  FinancialGoals.writes st' = [] /\ FinancialGoals.table st' = [g].
Proof.
  intros g st st'. subst st'.
  rewrite (updateGoalProgress_unknown_id
             (FinancialGoals.mkBackend true true) "g2" 1000 st).
  - split; reflexivity.
  - intros g' [<- | []]. discriminate.
Defined.

Lemma apply_update_id u row :
  FinancialGoal.id (FinancialGoals.apply_update u row) = FinancialGoal.id row.
Proof.
  unfold FinancialGoals.apply_update.
  destruct (_ =? _)%string; reflexivity.
Qed.

(** The component's copy of a goal when the update succeeds. *)
Lemma updateGoalProgress_ok be goalId amount st goal :
  find (fun g => (FinancialGoal.id g =? goalId)%string)
       (FinancialGoals.goals st) = Some goal ->
  FinancialGoals.update_ok be = true ->
  let newAmount := JS.max 0 (FinancialGoal.current_amount goal + amount) in
  let request :=
    FinancialGoals.mkUpdate goalId newAmount
      (FinancialGoal.target_amount goal <=? newAmount) in
  let st' := FinancialGoals.updateGoalProgress be goalId amount st in
  FinancialGoals.writes st' = FinancialGoals.writes st ++ [request]
  /\ FinancialGoals.table st'
     = map (FinancialGoals.apply_update request) (FinancialGoals.table st)
  /\ (FinancialGoals.fetch_ok be = true ->
      FinancialGoals.goals st' = FinancialGoals.table st').
Proof.
  intros Hfind Hok. unfold FinancialGoals.updateGoalProgress.
  rewrite Hfind, Hok. unfold FinancialGoals.fetchGoals.
  destruct (FinancialGoals.fetch_ok be); simpl;
    repeat split; try reflexivity; discriminate.
Qed.

(** C8.  For a goal of the component's list, a successful
    [updateGoalProgress] sends one update request, which carries both
    [current_amount = max(0, current_amount + amount)] and
    [is_completed = (that amount >= target_amount)]; afterwards every row
    with that id holds both values, so that its [is_completed] is true
    exactly when its [current_amount] is at least its [target_amount];
    the other rows are unchanged. *)
Theorem updateGoalProgress_contract be goalId amount st goal :
  find (fun g => (FinancialGoal.id g =? goalId)%string)
       (FinancialGoals.goals st) = Some goal ->
  FinancialGoals.update_ok be = true ->
  (forall row, In row (FinancialGoals.table st) ->
               FinancialGoal.id row = goalId ->
               FinancialGoal.target_amount row
               = FinancialGoal.target_amount goal) ->
  let newAmount := JS.max 0 (FinancialGoal.current_amount goal + amount) in
  let st' := FinancialGoals.updateGoalProgress be goalId amount st in
  FinancialGoals.writes st'
  = FinancialGoals.writes st
    ++ [FinancialGoals.mkUpdate goalId newAmount
          (FinancialGoal.target_amount goal <=? newAmount)]
  /\ List.length (FinancialGoals.table st')
     = List.length (FinancialGoals.table st)
  /\ (forall i row, nth_error (FinancialGoals.table st) i = Some row ->
        exists row', nth_error (FinancialGoals.table st') i = Some row'
        /\ FinancialGoal.id row' = FinancialGoal.id row
        /\ (FinancialGoal.id row <> goalId -> row' = row)
        /\ (FinancialGoal.id row = goalId ->
            FinancialGoal.current_amount row' = newAmount
            /\ FinancialGoal.is_completed row'
               = (FinancialGoal.target_amount goal <=? newAmount)
            /\ (FinancialGoal.is_completed row' = true
                <-> (FinancialGoal.target_amount row'
                     <=? FinancialGoal.current_amount row') = true))).
Proof.
  intros Hfind Hok Hsync newAmount st'.
  destruct (updateGoalProgress_ok be goalId amount st goal Hfind Hok)
    as [Hw [Ht _]].
  fold newAmount in Hw, Ht. fold st' in Hw, Ht.
  split; [exact Hw |]. split; [rewrite Ht; apply length_map |].
  intros i row Hi. rewrite Ht, nth_error_map, Hi. simpl.
  eexists. split; [reflexivity |].
  split; [apply apply_update_id |].
  unfold FinancialGoals.apply_update. simpl.
  split.
  - intros Hne. apply String.eqb_neq in Hne. rewrite Hne. reflexivity.
  - intros He. pose proof He as Heq. apply String.eqb_eq in Heq.
    rewrite Heq. simpl.
    rewrite (Hsync row (nth_error_In _ _ Hi) He).
    repeat split; auto.
Qed.

(** The goal example of the specification: 9500 of 10000, plus 1000. *)
Lemma updateGoalProgress_contract_witness :
  let g := FinancialGoal.mk "g1" "Vacation" 10000 9500 None None false in
  let st := FinancialGoals.mkState [g] [g] [] [] in
  let st' := FinancialGoals.updateGoalProgress
               (FinancialGoals.mkBackend true true) "g1" 1000 st in
  FinancialGoals.writes st' = [FinancialGoals.mkUpdate "g1" 10500 true]
  /\ FinancialGoals.table st'
     = [FinancialGoal.mk "g1" "Vacation" 10000 10500 None None true].
Proof.
  intros g st st'.
  assert (Hfind : find (fun g => (FinancialGoal.id g =? "g1")%string)
                       (FinancialGoals.goals st) = Some g) by reflexivity.
  assert (Hsync : forall row, In row (FinancialGoals.table st) ->
                    FinancialGoal.id row = "g1"%string ->
                    FinancialGoal.target_amount row
                    = FinancialGoal.target_amount g).
  { intros row [<- | []] _. reflexivity. }
  destruct (updateGoalProgress_contract
              (FinancialGoals.mkBackend true true) "g1" 1000 st g
              Hfind eq_refl Hsync) as [Hw _].
  split; [exact Hw | reflexivity].
Defined.

(** ** Applying a delta and its opposite *)

Lemma find_apply_update u goalId rows goal :
  find (fun g => (FinancialGoal.id g =? goalId)%string) rows = Some goal ->
  find (fun g => (FinancialGoal.id g =? goalId)%string)
       (map (FinancialGoals.apply_update u) rows)
  = Some (FinancialGoals.apply_update u goal).
Proof.
  induction rows as [| row rest IH]; simpl; [discriminate |].
  rewrite apply_update_id.
  destruct (FinancialGoal.id row =? goalId)%string.
  - intros [= ->]. reflexivity.
  - exact IH.
Qed.

(** One successful step, seen from the row that [find] returns. *)
Lemma updateGoalProgress_step be goalId amount st goal :
  FinancialGoals.goals st = FinancialGoals.table st ->
  find (fun g => (FinancialGoal.id g =? goalId)%string)
       (FinancialGoals.goals st) = Some goal ->
  FinancialGoals.update_ok be = true ->
  FinancialGoals.fetch_ok be = true ->
  let st' := FinancialGoals.updateGoalProgress be goalId amount st in
  FinancialGoals.goals st' = FinancialGoals.table st'
  /\ exists goal',
       find (fun g => (FinancialGoal.id g =? goalId)%string)
            (FinancialGoals.goals st') = Some goal'
       /\ FinancialGoal.current_amount goal'
          = JS.max 0 (FinancialGoal.current_amount goal + amount).
Proof.
  intros Hsync Hfind Hok Hfetch st'.
  destruct (updateGoalProgress_ok be goalId amount st goal Hfind Hok)
    as [_ [Ht Hg]].
  fold st' in Ht, Hg. specialize (Hg Hfetch).
  split; [exact Hg |].
  eexists. split.
  - rewrite Hg, Ht, <- Hsync. apply find_apply_update, Hfind.
  - unfold FinancialGoals.apply_update. simpl.
    apply find_some in Hfind. destruct Hfind as [_ Hid].
    rewrite Hid. reflexivity.
Qed.

(** C3, as stated, fails: a goal at 500 that gets -1000 and then +1000
    (two of the three buttons of the component) ends at 1000, not at
    [max(0, 500)]. *)
Lemma progress_round_trip_counterexample :
  let g := FinancialGoal.mk "g1" "Vacation" 10000 500 None None false in
  let be := FinancialGoals.mkBackend true true in
  let st := FinancialGoals.mkState [g] [g] [] [] in
  let st2 := FinancialGoals.updateGoalProgress be "g1" (- (-1000))
               (FinancialGoals.updateGoalProgress be "g1" (-1000) st) in
  (0 <=? FinancialGoal.current_amount g) = true
  /\ map FinancialGoal.current_amount (FinancialGoals.table st2) = [1000]
  /\ JS.max 0 (FinancialGoal.current_amount g) = 500
  /\ map FinancialGoal.current_amount (FinancialGoals.table st2)
     <> [JS.max 0 (FinancialGoal.current_amount g)].
Proof.
  intros g be st st2.
  split; [reflexivity | split; [reflexivity | split; [reflexivity |]]].
  vm_compute. intros E. discriminate E.
Qed.

(** C3, amended.  For a goal whose [current_amount] is [x >= 0], applying
    [delta] and then [-delta] leaves
    [max(0, max(0, x + delta) + -delta)].  When [x + delta > 0] (the
    first step is not clamped) and the two additions cancel exactly,
    this is [max(0, x)]; when [x + delta < 0] (the first step is clamped
    to 0) it is [max(0, 0 + -delta)]. *)
Theorem progress_round_trip be goalId delta st goal :
  FinancialGoals.goals st = FinancialGoals.table st ->
  find (fun g => (FinancialGoal.id g =? goalId)%string)
       (FinancialGoals.goals st) = Some goal ->
  FinancialGoals.update_ok be = true ->
  FinancialGoals.fetch_ok be = true ->
  (0 <=? FinancialGoal.current_amount goal) = true ->
  let x := FinancialGoal.current_amount goal in
  let st2 := FinancialGoals.updateGoalProgress be goalId (- delta)
               (FinancialGoals.updateGoalProgress be goalId delta st) in
  exists goal2,
    find (fun g => (FinancialGoal.id g =? goalId)%string)
         (FinancialGoals.table st2) = Some goal2
    /\ FinancialGoal.current_amount goal2
       = JS.max 0 (JS.max 0 (x + delta) + - delta)
    /\ ((0 <? x + delta) = true -> (x + delta) + - delta = x ->
        FinancialGoal.current_amount goal2 = JS.max 0 x)
    /\ ((x + delta <? 0) = true ->
        FinancialGoal.current_amount goal2 = JS.max 0 (0 + - delta)).
Proof.
  intros Hsync Hfind Hok Hfetch Hx x st2.
  destruct (updateGoalProgress_step be goalId delta st goal
              Hsync Hfind Hok Hfetch) as [Hsync1 [goal1 [Hfind1 Hcur1]]].
  destruct (updateGoalProgress_step be goalId (- delta) _ goal1
              Hsync1 Hfind1 Hok Hfetch) as [Hsync2 [goal2 [Hfind2 Hcur2]]].
  fold st2 in Hsync2, Hfind2. fold x in Hcur1. rewrite Hcur1 in Hcur2.
  exists goal2. split; [rewrite <- Hsync2; exact Hfind2 |].
  split; [exact Hcur2 |]. split.
  - intros Hpos Hexact. rewrite Hcur2, (max_0_pos _ Hpos), Hexact.
    reflexivity.
  - intros Hneg. rewrite Hcur2, (max_0_neg _ Hneg). reflexivity.
Qed.

(** A goal at 9500 that gets +1000 and then -1000 is back at 9500. *)
Lemma progress_round_trip_witness :
  let g := FinancialGoal.mk "g1" "Vacation" 10000 9500 None None false in
  let be := FinancialGoals.mkBackend true true in
  let st := FinancialGoals.mkState [g] [g] [] [] in
  let st2 := FinancialGoals.updateGoalProgress be "g1" (- 1000)
               (FinancialGoals.updateGoalProgress be "g1" 1000 st) in
  (0 <=? FinancialGoal.current_amount g) = true
  /\ exists goal2,
       find (fun g => (FinancialGoal.id g =? "g1")%string)
            (FinancialGoals.table st2) = Some goal2
       /\ FinancialGoal.current_amount goal2 = JS.max 0 9500.
Proof.
  intros g be st st2. split; [reflexivity |].
  destruct (progress_round_trip be "g1" 1000 st g
              eq_refl eq_refl eq_refl eq_refl eq_refl)
    as [goal2 [Hfind [_ [Hback _]]]].
  exists goal2. split; [exact Hfind |].
  apply Hback; reflexivity.
Defined.

(* ================================================================== *)
(** * Part III: further properties of the components                   *)
(* ================================================================== *)

(** ** Category suggestions *)

Lemma array_from_set_fold_in values :
  forall set x,
    In x (fold_left (fun set v => if existsb (String.eqb v) set then set
                                  else set ++ [v]) values set)
    <-> In x set \/ In x values.
Proof.
  induction values as [| v rest IH]; intros set x; simpl; [tauto |].
  rewrite IH. destruct (existsb (String.eqb v) set) eqn:E.
  - apply existsb_exists in E. destruct E as [y [Hy Hvy]].
    apply String.eqb_eq in Hvy. subst y.
    split; [tauto |]. intros [H | [<- | H]]; auto.
  - rewrite in_app_iff. simpl. tauto.
Qed.

Lemma array_from_set_fold_NoDup values :
  forall set,
    NoDup set ->
    NoDup (fold_left (fun set v => if existsb (String.eqb v) set then set
                                   else set ++ [v]) values set).
Proof.
  induction values as [| v rest IH]; intros set Hset; simpl; [exact Hset |].
  apply IH. destruct (existsb (String.eqb v) set) eqn:E; [exact Hset |].
  apply NoDup_rev in Hset. rewrite <- (rev_involutive (set ++ [v])).
  apply NoDup_rev. rewrite rev_app_distr. simpl.
  constructor; [| exact Hset].
  rewrite <- in_rev. intros Hin.
  assert (existsb (String.eqb v) set = true).
  { apply existsb_exists. exists v. split; [exact Hin |].
    apply String.eqb_refl. }
  congruence.
Qed.

(** The suggestions of the category input hold every category that has
    an expense, each of them once, and nothing else. *)
Theorem categories_contract transactions :
  NoDup (BudgetManager.categories transactions)
  /\ forall c,
       In c (BudgetManager.categories transactions)
       <-> exists t, In t transactions
                     /\ Transaction.type t = Expense
                     /\ Transaction.category t = c.
Proof.
  unfold BudgetManager.categories, BudgetManager.array_from_set. split.
  - apply array_from_set_fold_NoDup. constructor.
  - intros c. rewrite array_from_set_fold_in, in_map_iff. split.
    + intros [[] | [t [Hc Ht]]].
      apply filter_In in Ht. destruct Ht as [Ht Hty].
      apply is_type_true in Hty. now exists t.
    + intros [t [Ht [Hty Hc]]]. right. exists t. split; [exact Hc |].
      apply filter_In. split; [exact Ht | now apply is_type_true].
Qed.


(** ** Day summary and trend data *)

Lemma filter_length_by_type (l : list Transaction.t) :
  List.length l
  = (List.length (filter (is_type Income) l)
     + List.length (filter (is_type Expense) l))%nat.
Proof.
  induction l as [| t rest IH]; simpl; [reflexivity |].
  destruct (is_type Income t) eqn:E1, (is_type Expense t) eqn:E2;
    simpl; try lia.
  - apply is_type_true in E1, E2. congruence.
  - unfold is_type in E1, E2. destruct (Transaction.type t); discriminate.
Qed.

Lemma filter_filter_andb {A} (p q : A -> bool) (l : list A) :
  filter p (filter q l) = filter (fun x => q x && p x) l.
Proof.
  induction l as [| x rest IH]; simpl; [reflexivity |].
  destruct (q x); simpl; [destruct (p x) |]; simpl; congruence.
Qed.

(** [getDaySummary] counts the transactions dated on the day; its count
    is 0 exactly when there is none, and then both sums are 0; every
    counted transaction is an income or an expense; and for each day of
    the trend window the sums are those of the trend chart's bucket. *)
Theorem getDaySummary_contract date transactions :
  let s := FinanceTracker.getDaySummary date transactions in
  let day := Day.format_yyyy_MM_dd date in
  (DaySummary.count s = 0%nat
   <-> forall t, In t transactions -> Transaction.date t <> day)
  /\ (DaySummary.count s = 0%nat ->
      DaySummary.income s = 0 /\ DaySummary.expenses s = 0)
  /\ DaySummary.income s
     = total_where (on_day day Income) (on_day_dec day Income) transactions
  /\ DaySummary.expenses s
     = total_where (on_day day Expense) (on_day_dec day Expense) transactions
  /\ DaySummary.count s
     = (List.length
          (filter (fun t => (Transaction.date t =? day)%string
                            && is_type Income t) transactions)
        + List.length
            (filter (fun t => (Transaction.date t =? day)%string
                              && is_type Expense t) transactions))%nat
  /\ forall today i,
       (i < 30)%nat -> date = (today - 29 + Z.of_nat i)%Z ->
       exists b,
         nth_error (TrendChart.chartData today transactions) i = Some b
         /\ TrendChart.date b = day
         /\ TrendChart.income b = DaySummary.income s
         /\ TrendChart.expenses b = DaySummary.expenses s.
Proof.
  intros s day. subst s. unfold FinanceTracker.getDaySummary.
  fold day. cbn [DaySummary.count DaySummary.income DaySummary.expenses].
  set (dayTransactions :=
         filter (fun t => (Transaction.date t =? day)%string) transactions).
  assert (Hempty : List.length dayTransactions = 0%nat
                   <-> forall t, In t transactions ->
                                 Transaction.date t <> day).
  { split.
    - intros Hlen t Ht Hd. apply length_zero_iff_nil in Hlen.
      assert (Hin : In t dayTransactions).
      { apply filter_In. split; [exact Ht | now apply String.eqb_eq]. }
      rewrite Hlen in Hin. destruct Hin.
    - intros Hnone. apply length_zero_iff_nil.
      destruct dayTransactions as [| t rest] eqn:E; [reflexivity |].
      assert (Hin : In t dayTransactions) by (rewrite E; left; reflexivity).
      apply filter_In in Hin. destruct Hin as [Ht Hd].
      apply String.eqb_eq in Hd. exfalso. exact (Hnone t Ht Hd). }
  split; [exact Hempty |]. split; [| split; [| split; [| split]]].
  - intros Hlen. apply length_zero_iff_nil in Hlen. rewrite Hlen.
    split; reflexivity.
  - unfold dayTransactions. rewrite sum_amounts_filter.
    apply sum_amounts_total_where, on_day_filter.
  - unfold dayTransactions. rewrite sum_amounts_filter.
    apply sum_amounts_total_where, on_day_filter.
  - rewrite (filter_length_by_type dayTransactions).
    unfold dayTransactions. rewrite !filter_filter_andb. reflexivity.
  - intros today i Hi Hdate.
    exists (TrendChart.bucket today transactions i). split.
    + unfold TrendChart.chartData. rewrite nth_error_map, nth_error_seq.
      destruct (Nat.ltb_spec i 30) as [_ | Hge]; [reflexivity | lia].
    + unfold TrendChart.bucket, Day.subDays.
      replace (today - (29 - Z.of_nat i))%Z with date by lia.
      fold day. fold dayTransactions. repeat split; reflexivity.
Qed.

(** The trend chart of non-negative amounts has data exactly when a
    transaction dated inside the 30-day window has a positive amount;
    with no transactions at all it has none. *)
Theorem trend_hasData_iff today transactions :
  (forall t, In t transactions -> (0 <=? Transaction.amount t) = true) ->
  (TrendChart.hasData (TrendChart.chartData today transactions) = true
   <-> exists t i,
         In t transactions /\ (i < 30)%nat
         /\ Transaction.date t
            = Day.format_yyyy_MM_dd (today - 29 + Z.of_nat i)%Z
         /\ (0 <? Transaction.amount t) = true)
  /\ TrendChart.hasData (TrendChart.chartData today []) = false.
Proof.
  intros Hnonneg. split; [| reflexivity].
  unfold TrendChart.hasData, TrendChart.chartData.
  rewrite existsb_exists.
  assert (Hsum : forall i ty,
             (0 <? sum_amounts (is_type ty)
                     (filter (fun t => (Transaction.date t
                                        =? Day.format_yyyy_MM_dd
                                             (today - 29 + Z.of_nat i)%Z)%string)
                             transactions))
             = existsb (fun t => ((Transaction.date t
                                   =? Day.format_yyyy_MM_dd
                                        (today - 29 + Z.of_nat i)%Z)%string
                                  && is_type ty t)
                                 && (0 <? Transaction.amount t))
                       transactions).
  { intros i ty. rewrite sum_amounts_filter.
    apply sum_amounts_nonneg. intros t Ht _. now apply Hnonneg. }
  split.
  - intros [b [Hin Hpos]]. apply in_map_iff in Hin.
    destruct Hin as [i [<- Hi]]. apply in_seq in Hi.
    unfold TrendChart.bucket, Day.subDays in Hpos.
    cbn [TrendChart.income TrendChart.expenses] in Hpos.
    replace (today - (29 - Z.of_nat i))%Z
      with (today - 29 + Z.of_nat i)%Z in Hpos by lia.
    rewrite !Hsum in Hpos. apply orb_true_iff in Hpos.
    destruct Hpos as [Hpos | Hpos];
      apply existsb_exists in Hpos; destruct Hpos as [t [Ht Hc]];
      apply andb_true_iff in Hc; destruct Hc as [Hc Hp];
      apply andb_true_iff in Hc; destruct Hc as [Hd _];
      apply String.eqb_eq in Hd;
      exists t, i; repeat split; try assumption; lia.
  - intros [t [i [Ht [Hi [Hd Hp]]]]].
    exists (TrendChart.bucket today transactions i). split.
    + apply in_map, in_seq. lia.
    + unfold TrendChart.bucket, Day.subDays.
      cbn [TrendChart.income TrendChart.expenses].
      replace (today - (29 - Z.of_nat i))%Z
        with (today - 29 + Z.of_nat i)%Z by lia.
      rewrite !Hsum. apply orb_true_iff.
      assert (Hex : forall ty, Transaction.type t = ty ->
                existsb (fun t => ((Transaction.date t
                                    =? Day.format_yyyy_MM_dd
                                         (today - 29 + Z.of_nat i)%Z)%string
                                   && is_type ty t)
                                  && (0 <? Transaction.amount t))
                        transactions = true).
      { intros ty Hty. apply existsb_exists. exists t. split; [exact Ht |].
        rewrite Hp, andb_true_r. apply andb_true_iff. split.
        - now apply String.eqb_eq.
        - now apply is_type_true. }
      destruct (Transaction.type t) eqn:Hty; [left | right]; now apply Hex.
Qed.

Lemma getDaySummary_contract_witness :
  let transactions :=
    [ Transaction.mk "t1" "2024-05-01" "food" 1000 Expense None;
      Transaction.mk "t2" "2024-05-02" "salary" 5000 Income None;
      Transaction.mk "t3" "2024-05-01" "rent" 300 Expense None ] in
  FinanceTracker.getDaySummary 19844%Z transactions
  = DaySummary.mk 0 1300 2
  /\ DaySummary.count (FinanceTracker.getDaySummary 19846%Z transactions)
     = 0%nat
  /\ DaySummary.income (FinanceTracker.getDaySummary 19846%Z transactions) = 0
  /\ exists b,
       nth_error (TrendChart.chartData 19850%Z transactions) 23 = Some b
       /\ TrendChart.expenses b = 1300.
Proof.
  intros transactions. split; [reflexivity |].
  destruct (getDaySummary_contract 19846%Z transactions)
    as [Hcount [Hzero _]].
  assert (Hc : DaySummary.count
                 (FinanceTracker.getDaySummary 19846%Z transactions) = 0%nat).
  { apply Hcount. intros t [<- | [<- | [<- | []]]]; discriminate. }
  split; [exact Hc |]. split; [apply (Hzero Hc) |].
  destruct (getDaySummary_contract 19844%Z transactions)
    as [_ [_ [_ [_ [_ Hbucket]]]]].
  destruct (Hbucket 19850%Z 23%nat ltac:(lia) ltac:(reflexivity))
    as [b [Hb [_ [_ He]]]].
  exists b. split; [exact Hb | exact He].
Defined.

Lemma trend_hasData_iff_witness :
  let transactions :=
    [ Transaction.mk "t1" "2024-05-01" "food" 1000 Expense None;
      Transaction.mk "t2" "2024-05-02" "salary" 5000 Income None ] in
  TrendChart.hasData (TrendChart.chartData 19844%Z transactions) = true
  /\ TrendChart.hasData (TrendChart.chartData 19900%Z transactions) = false.
Proof.
  intros transactions.
  assert (Hnonneg : forall t, In t transactions ->
                      (0 <=? Transaction.amount t) = true).
  { intros t [<- | [<- | []]]; reflexivity. }
  split.
  - apply (proj1 (trend_hasData_iff 19844%Z transactions Hnonneg)).
    eexists. exists 29%nat. split; [left; reflexivity |].
    split; [lia | split; reflexivity].
  - reflexivity.
Defined.

(** ** The pie chart: empty state and colours *)

Lemma set_not_nil obj k v : JSObject.set obj k v <> [].
Proof.
  destruct obj as [| [k' w] rest]; simpl; [discriminate |].
  destruct (k' =? k)%string; discriminate.
Qed.

Lemma fold_add_to_category_not_nil expenses :
  forall acc, acc <> [] ->
    fold_left ExpenseChart.add_to_category expenses acc <> [].
Proof.
  induction expenses as [| t rest IH]; intros acc H; simpl; [exact H |].
  apply IH. apply set_not_nil.
Qed.

Lemma categoryTotals_nil expenses :
  ExpenseChart.categoryTotals expenses = [] <-> expenses = [].
Proof.
  unfold ExpenseChart.categoryTotals. split.
  - destruct expenses as [| t rest]; [reflexivity |]. simpl. intros H.
    exfalso. revert H. apply fold_add_to_category_not_nil, set_not_nil.
  - intros ->. reflexivity.
Qed.

Lemma chartData_some month transactions :
  (forall t, In t transactions -> in_month month Expense t ->
             JSObject.inherited (Transaction.category t) = false) ->
  ExpenseChart.chartData month transactions
  = Some (firstn 6
            (array_sort ExpenseChart.by_amount_desc
               (map (fun '(category, amount) => ChartItem.mk category amount 0)
                    (JSObject.entries
                       (ExpenseChart.categoryTotals
                          (ExpenseChart.monthExpenses month transactions)))))).
Proof.
  intros H. unfold ExpenseChart.chartData.
  replace (existsb _ (ExpenseChart.monthExpenses month transactions))
    with false; [reflexivity |].
  symmetry. apply not_true_is_false. intros Hex.
  apply existsb_exists in Hex. destruct Hex as [t [Ht Hinh]].
  apply monthExpenses_in in Ht. destruct Ht as [Ht Hm].
  rewrite (H t Ht Hm) in Hinh. discriminate.
Qed.

Lemma chartData_length month transactions items :
  ExpenseChart.chartData month transactions = Some items ->
  (List.length items <= 6)%nat.
Proof.
  unfold ExpenseChart.chartData. cbv zeta.
  destruct (existsb _ _); [discriminate |]. intros H.
  match type of H with
  | Some ?l = _ => assert (Hitems : items = l) by congruence
  end.
  rewrite Hitems, length_firstn. apply Nat.le_min_l.
Qed.

(** When no category of the month's expenses is a name inherited from
    [Object.prototype], the card shows its text for "no data" exactly
    when the month has no expense. *)
Theorem expenseChart_empty_state currentMonth transactions :
  (forall t, In t transactions -> in_month currentMonth Expense t ->
             JSObject.inherited (Transaction.category t) = false) ->
  exists items,
    ExpenseChart.chartData currentMonth transactions = Some items
    /\ (ExpenseChart.showsEmptyState items = true
        <-> forall t, In t transactions -> ~ in_month currentMonth Expense t).
Proof.
  intros H. eexists. split; [apply chartData_some, H |].
  set (E := ExpenseChart.monthExpenses currentMonth transactions).
  set (obj := ExpenseChart.categoryTotals E).
  set (items := map (fun '(category, amount) => ChartItem.mk category amount 0)
                    (JSObject.entries obj)).
  assert (Hlen : List.length (array_sort ExpenseChart.by_amount_desc items)
                 = List.length obj).
  { rewrite (Permutation_length
               (array_sort_perm ExpenseChart.by_amount_desc items)).
    unfold items. rewrite length_map.
    apply Permutation_length, entries_perm. }
  assert (HE : E = [] <-> forall t, In t transactions ->
                                    ~ in_month currentMonth Expense t).
  { split.
    - intros HEnil t Ht Hm.
      assert (Hin : In t E) by (apply monthExpenses_in; tauto).
      rewrite HEnil in Hin. destruct Hin.
    - intros Hnone. destruct E as [| t rest] eqn:HEq; [reflexivity |].
      assert (Hin : In t E) by (rewrite HEq; left; reflexivity).
      apply monthExpenses_in in Hin. destruct Hin as [Ht Hm].
      exfalso. exact (Hnone t Ht Hm). }
  rewrite <- HE, <- (categoryTotals_nil E). fold obj.
  destruct (array_sort ExpenseChart.by_amount_desc items) as [| i rest];
    destruct obj as [| kv obj']; simpl in *; try discriminate;
    split; intros; (reflexivity || discriminate).
Qed.

Lemma expenseChart_empty_state_witness :
  let transactions :=
    [ Transaction.mk "t1" "2024-05-01" "food" 1000 Expense None;
      Transaction.mk "t2" "2024-05-02" "salary" 5000 Income None ] in
  (exists items,
      ExpenseChart.chartData "2024-06" transactions = Some items
      /\ ExpenseChart.showsEmptyState items = true)
  /\ ExpenseChart.chartData "2024-05" transactions
     = Some [ChartItem.mk "food" 1000 0].
Proof.
  intros transactions. split; [| reflexivity].
  destruct (expenseChart_empty_state "2024-06" transactions)
    as [items [Hdata Hempty]].
  - intros t [<- | [<- | []]] _; reflexivity.
  - exists items. split; [exact Hdata |]. apply Hempty.
    intros t [<- | [<- | []]] [_ Hp]; discriminate.
Defined.

Lemma COLORS_NoDup : NoDup ExpenseChart.COLORS.
Proof.
  unfold ExpenseChart.COLORS.
  repeat (constructor; [simpl; intuition discriminate |]). constructor.
Qed.

Lemma firstn_In {A} (n : nat) (l : list A) x :
  In x (firstn n l) -> In x l.
Proof.
  revert l. induction n as [| n IH]; intros l; simpl; [tauto |].
  destruct l as [| y rest]; simpl; [tauto |].
  intros [H | H]; [left; exact H | right; now apply IH].
Qed.

Lemma firstn_NoDup {A} (n : nat) (l : list A) :
  NoDup l -> NoDup (firstn n l).
Proof.
  revert l. induction n as [| n IH]; intros l H; simpl; [constructor |].
  destruct l as [| x rest]; [constructor |].
  inversion H as [| ? ? Hx Hrest]; subst. constructor; [| now apply IH].
  intros Hin. apply Hx. eapply firstn_In; eauto.
Qed.

Lemma cellFills_firstn data :
  (List.length data <= 6)%nat ->
  ExpenseChart.cellFills data
  = firstn (List.length data) ExpenseChart.COLORS.
Proof.
  unfold ExpenseChart.cellFills. generalize (List.length data).
  intros n Hn.
  destruct n as [| [| [| [| [| [| [| n]]]]]]]; try reflexivity. lia.
Qed.

(** [chartData] keeps at most six items and there are six colours: every
    slice of the pie gets a colour of its own, the colours being taken
    in the order of [COLORS]. *)
Theorem expenseChart_colours_distinct currentMonth transactions items :
  ExpenseChart.chartData currentMonth transactions = Some items ->
  let fills :=
    ExpenseChart.cellFills (ExpenseChart.dataWithPercentages items) in
  List.length fills = List.length items
  /\ fills = firstn (List.length items) ExpenseChart.COLORS
  /\ NoDup fills.
Proof.
  intros Hdata fills. apply chartData_length in Hdata.
  assert (Hlen : List.length (ExpenseChart.dataWithPercentages items)
                 = List.length items)
    by (unfold ExpenseChart.dataWithPercentages; apply length_map).
  assert (Hfills : fills = firstn (List.length items) ExpenseChart.COLORS).
  { subst fills. rewrite cellFills_firstn by lia. now rewrite Hlen. }
  split; [| split; [exact Hfills |]].
  - rewrite Hfills, length_firstn. unfold ExpenseChart.COLORS. simpl.
    lia.
  - rewrite Hfills. apply firstn_NoDup, COLORS_NoDup.
Qed.

Lemma expenseChart_colours_distinct_witness :
  let expense c := Transaction.mk c "2024-05-03" c 10 Expense None in
  let transactions :=
    map expense ["a"; "b"; "c"; "d"; "e"; "f"; "g"]%string in
  exists items,
    ExpenseChart.chartData "2024-05" transactions = Some items
    /\ ExpenseChart.cellFills (ExpenseChart.dataWithPercentages items)
       = ExpenseChart.COLORS
    /\ NoDup (ExpenseChart.cellFills
                (ExpenseChart.dataWithPercentages items)).
Proof.
  intros expense transactions.
  eexists. split; [reflexivity |]. split; [reflexivity |].
  refine (proj2 (proj2 (expenseChart_colours_distinct
                          "2024-05" transactions _ _))).
  reflexivity.
Defined.

(** ** The progress update and the table *)

Lemma add_finite_not_nan x y :
  is_finite x = true -> is_finite y = true -> is_nan (x + y) = false.
Proof.
  intros Hx Hy. apply is_nan_false_Prim2SF. rewrite add_spec.
  apply is_finite_Prim2SF in Hx. apply is_finite_Prim2SF in Hy.
  destruct Hx as [[sx ->] | [sx [mx [ex ->]]]];
    destruct Hy as [[sy ->] | [sy [my [ey ->]]]];
    try (destruct sx, sy; discriminate).
  unfold SF64add, SFadd, binary_normalize.
  destruct (_ + _)%Z as [| p | p]; [discriminate | |].
  - pose proof (binary_round_signed false p (Z.min ex ey)) as H.
    intros E. rewrite E in H. discriminate.
  - pose proof (binary_round_signed true p (Z.min ex ey)) as H.
    intros E. rewrite E in H. discriminate.
Qed.

Lemma max_0_nonneg v : is_nan v = false -> (0 <=? JS.max 0 v) = true.
Proof.
  intros Hv. unfold JS.max. rewrite Hv. simpl.
  destruct (0 <? v) eqn:Hpos; [now apply ltb_leb |].
  destruct (v <? 0); reflexivity.
Qed.

Lemma updateGoalProgress_cases be goalId amount st :
  let st' := FinancialGoals.updateGoalProgress be goalId amount st in
  st' = st
  \/ exists goal,
       In goal (FinancialGoals.goals st)
       /\ FinancialGoal.id goal = goalId
       /\ let request :=
            FinancialGoals.mkUpdate goalId
              (JS.max 0 (FinancialGoal.current_amount goal + amount))
              (FinancialGoal.target_amount goal
               <=? JS.max 0 (FinancialGoal.current_amount goal + amount)) in
          FinancialGoals.writes st' = FinancialGoals.writes st ++ [request]
          /\ (FinancialGoals.table st' = FinancialGoals.table st
              \/ FinancialGoals.table st'
                 = map (FinancialGoals.apply_update request)
                       (FinancialGoals.table st)).
Proof.
  unfold FinancialGoals.updateGoalProgress.
  destruct (find _ (FinancialGoals.goals st)) as [goal |] eqn:Hfind;
    [| left; reflexivity].
  right. exists goal. apply find_some in Hfind. destruct Hfind as [Hin Hid].
  apply String.eqb_eq in Hid.
  split; [exact Hin |]. split; [exact Hid |].
  destruct (FinancialGoals.update_ok be); simpl.
  - unfold FinancialGoals.fetchGoals.
    destruct (FinancialGoals.fetch_ok be); simpl; split; auto.
  - split; auto.
Qed.

(** The clamp keeps the table's constraint [current_amount >= 0]: when
    the amounts of the component's goals and the delta are finite, every
    update request carries a [current_amount] that is not negative, and
    a table whose rows satisfy the constraint still satisfies it after
    the call, whatever the backend answers. *)
Theorem updateGoalProgress_keeps_check be goalId amount st :
  (forall g, In g (FinancialGoals.goals st) ->
             is_finite (FinancialGoal.current_amount g) = true) ->
  is_finite amount = true ->
  let st' := FinancialGoals.updateGoalProgress be goalId amount st in
  (forall r, In r (FinancialGoals.writes st') ->
             In r (FinancialGoals.writes st)
             \/ (0 <=? FinancialGoals.set_current_amount r) = true)
  /\ ((forall row, In row (FinancialGoals.table st) ->
                   check_current_amount row) ->
      forall row, In row (FinancialGoals.table st') ->
                  check_current_amount row).
Proof.
  intros Hfin Hamount st'.
  destruct (updateGoalProgress_cases be goalId amount st)
    as [Hsame | [goal [Hin [Hid [Hw Ht]]]]].
  - fold st' in Hsame. rewrite Hsame. split; auto.
  - fold st' in Hw, Ht.
    assert (Hnew : (0 <=? JS.max 0 (FinancialGoal.current_amount goal
                                    + amount)) = true).
    { apply max_0_nonneg, add_finite_not_nan; auto. }
    split.
    + intros r Hr. rewrite Hw in Hr. apply in_app_iff in Hr.
      destruct Hr as [Hr | [<- | []]]; [left; exact Hr | right; exact Hnew].
    + intros Hcheck row Hrow. destruct Ht as [Ht | Ht]; rewrite Ht in Hrow.
      * now apply Hcheck.
      * apply in_map_iff in Hrow. destruct Hrow as [row0 [<- Hrow0]].
        unfold FinancialGoals.apply_update, check_current_amount. simpl.
        destruct (_ =? _)%string; simpl; [exact Hnew | now apply Hcheck].
Qed.

Lemma updateGoalProgress_keeps_check_witness :
  let g := FinancialGoal.mk "g1" "Vacation" 10000 500 None None false in
  let st := FinancialGoals.mkState [g] [g] [] [] in
  let st' := FinancialGoals.updateGoalProgress
               (FinancialGoals.mkBackend true true) "g1" (-1000) st in
  FinancialGoals.writes st' = [FinancialGoals.mkUpdate "g1" 0 false]
  /\ forall row, In row (FinancialGoals.table st') ->
                 check_current_amount row.
Proof.
  intros g st st'. split; [reflexivity |].
  refine (proj2 (updateGoalProgress_keeps_check
                   (FinancialGoals.mkBackend true true) "g1" (-1000) st
                   _ eq_refl) _).
  - intros g' [<- | []]. reflexivity.
  - intros row [<- | []]. reflexivity.
Defined.

(** When the backend rejects the update, no row and no goal of the
    component changes, the list is not fetched again, and the one toast
    of the call reports the failure. *)
Theorem updateGoalProgress_rejected be goalId amount st goal :
  find (fun g => (FinancialGoal.id g =? goalId)%string)
       (FinancialGoals.goals st) = Some goal ->
  FinancialGoals.update_ok be = false ->
  let st' := FinancialGoals.updateGoalProgress be goalId amount st in
  FinancialGoals.goals st' = FinancialGoals.goals st
  /\ FinancialGoals.table st' = FinancialGoals.table st
  /\ FinancialGoals.toasts st'
     = FinancialGoals.toasts st ++ [FinancialGoals.UpdateFailed]
  /\ List.length (FinancialGoals.writes st')
     = S (List.length (FinancialGoals.writes st)).
Proof.
  intros Hfind Hfail. unfold FinancialGoals.updateGoalProgress.
  rewrite Hfind, Hfail. simpl. repeat split.
  rewrite length_app. simpl. lia.
Qed.

Lemma updateGoalProgress_rejected_witness :
  let g := FinancialGoal.mk "g1" "Vacation" 10000 9500 None None false in
  let st := FinancialGoals.mkState [g] [g] [] [] in
  let st' := FinancialGoals.updateGoalProgress
               (FinancialGoals.mkBackend false true) "g1" 1000 st in
  FinancialGoals.table st' = [g]
  /\ FinancialGoals.toasts st' = [FinancialGoals.UpdateFailed].
Proof.
  intros g st st'.
  destruct (updateGoalProgress_rejected
              (FinancialGoals.mkBackend false true) "g1" 1000 st g
              eq_refl eq_refl) as [_ [Ht [Hto _]]].
  split; [exact Ht | exact Hto].
Defined.

Lemma apply_update_fixed_fields u row :
  fixed_fields (FinancialGoals.apply_update u row) = fixed_fields row.
Proof.
  unfold FinancialGoals.apply_update, fixed_fields.
  destruct (_ =? _)%string; reflexivity.
Qed.

(** Whatever the id, the delta and the answers of the backend,
    [updateGoalProgress] neither adds nor removes a row, and it leaves
    the id, title, target amount, deadline and category of every row as
    they are. *)
Theorem updateGoalProgress_fixed_fields be goalId amount st :
  map fixed_fields
      (FinancialGoals.table
         (FinancialGoals.updateGoalProgress be goalId amount st))
  = map fixed_fields (FinancialGoals.table st).
Proof.
  destruct (updateGoalProgress_cases be goalId amount st)
    as [-> | [goal [_ [_ [_ [-> | ->]]]]]]; try reflexivity.
  rewrite map_map. apply map_ext. intros row.
  apply apply_update_fixed_fields.
Qed.

(** ** A stale list and a deleted goal *)

(** When an update succeeds but the list cannot be fetched afterwards,
    the component keeps its old copy; the next update starts from the
    old amount, and what it writes replaces the effect of the first
    delta: the row ends at [max(0, x + delta2)]. *)
Theorem stale_copy_overwrites goalId delta1 delta2 st goal :
  FinancialGoals.goals st = FinancialGoals.table st ->
  find (fun g => (FinancialGoal.id g =? goalId)%string)
       (FinancialGoals.goals st) = Some goal ->
  let x := FinancialGoal.current_amount goal in
  let st1 := FinancialGoals.updateGoalProgress
               (FinancialGoals.mkBackend true false) goalId delta1 st in
  let st2 := FinancialGoals.updateGoalProgress
               (FinancialGoals.mkBackend true true) goalId delta2 st1 in
  FinancialGoals.goals st1 = FinancialGoals.goals st
  /\ FinancialGoals.toasts st1
     = FinancialGoals.toasts st
       ++ [FinancialGoals.LoadFailed;
           if 0 <? delta1 then FinancialGoals.ProgressUpdated
           else FinancialGoals.AmountDecreased]
  /\ (exists goal1,
        find (fun g => (FinancialGoal.id g =? goalId)%string)
             (FinancialGoals.table st1) = Some goal1
        /\ FinancialGoal.current_amount goal1 = JS.max 0 (x + delta1))
  /\ (exists goal2,
        find (fun g => (FinancialGoal.id g =? goalId)%string)
             (FinancialGoals.table st2) = Some goal2
        /\ FinancialGoal.current_amount goal2 = JS.max 0 (x + delta2)).
Proof.
  intros Hsync Hfind x st1 st2.
  pose proof Hfind as Hid. apply find_some in Hid. destruct Hid as [_ Hid].
  assert (H1 : st1
               = FinancialGoals.mkState (FinancialGoals.goals st)
                   (map (FinancialGoals.apply_update
                           (FinancialGoals.mkUpdate goalId
                              (JS.max 0 (x + delta1))
                              (FinancialGoal.target_amount goal
                               <=? JS.max 0 (x + delta1))))
                        (FinancialGoals.table st))
                   (FinancialGoals.writes st
                    ++ [FinancialGoals.mkUpdate goalId
                          (JS.max 0 (x + delta1))
                          (FinancialGoal.target_amount goal
                           <=? JS.max 0 (x + delta1))])
                   ((FinancialGoals.toasts st ++ [FinancialGoals.LoadFailed])
                    ++ [if 0 <? delta1 then FinancialGoals.ProgressUpdated
                        else FinancialGoals.AmountDecreased])).
  { subst st1. unfold FinancialGoals.updateGoalProgress.
    rewrite Hfind. reflexivity. }
  split; [rewrite H1; reflexivity |].
  split; [rewrite H1; simpl; now rewrite <- app_assoc |].
  split.
  - eexists. split.
    + rewrite H1. simpl. rewrite <- Hsync.
      apply find_apply_update, Hfind.
    + unfold FinancialGoals.apply_update. simpl. rewrite Hid. reflexivity.
  - assert (Hfind1 : find (fun g => (FinancialGoal.id g =? goalId)%string)
                          (FinancialGoals.goals st1) = Some goal)
      by (rewrite H1; exact Hfind).
    destruct (updateGoalProgress_ok (FinancialGoals.mkBackend true true)
                goalId delta2 st1 goal Hfind1 eq_refl) as [_ [Ht _]].
    fold st2 in Ht. eexists. split.
    + rewrite Ht. apply find_apply_update.
      rewrite H1. simpl. rewrite <- Hsync.
      apply find_apply_update, Hfind.
    + unfold FinancialGoals.apply_update at 1. simpl.
      rewrite apply_update_id, Hid. reflexivity.
Qed.

(** A goal at 0 that gets +1000 twice, the first time without the
    refetch: the row holds 1000, not 2000. *)
Lemma stale_copy_overwrites_witness :
  let g := FinancialGoal.mk "g1" "Vacation" 10000 0 None None false in
  let st := FinancialGoals.mkState [g] [g] [] [] in
  let st2 := FinancialGoals.updateGoalProgress
               (FinancialGoals.mkBackend true true) "g1" 1000
               (FinancialGoals.updateGoalProgress
                  (FinancialGoals.mkBackend true false) "g1" 1000 st) in
  exists goal2,
    find (fun g => (FinancialGoal.id g =? "g1")%string)
         (FinancialGoals.table st2) = Some goal2
    /\ FinancialGoal.current_amount goal2 = 1000.
Proof.
  intros g st st2.
  destruct (stale_copy_overwrites "g1" 1000 1000 st g eq_refl eq_refl)
    as [_ [_ [_ [goal2 [Hfind Hcur]]]]].
  exists goal2. split; [exact Hfind | exact Hcur].
Defined.

(** A successful [deleteGoal] that can fetch the list again leaves the
    component with the rows of the table without the deleted id, in the
    same order; a later [updateGoalProgress] for that id then sends
    nothing and changes nothing.  A rejected delete changes nothing. *)
Theorem deleteGoal_contract delete_ok be be' goalId amount st :
  let outcome := FinancialGoals.deleteGoal delete_ok be goalId st in
  let st' := FinancialGoals.state outcome in
  FinancialGoals.deletes outcome = [goalId]
  /\ FinancialGoals.writes st' = FinancialGoals.writes st
  /\ (delete_ok = false -> st' = st)
  /\ (delete_ok = true ->
      FinancialGoals.table st'
      = filter (fun row => negb (FinancialGoal.id row =? goalId)%string)
               (FinancialGoals.table st)
      /\ (forall row, In row (FinancialGoals.table st') ->
                      FinancialGoal.id row <> goalId)
      /\ (FinancialGoals.fetch_ok be = true ->
          FinancialGoals.goals st' = FinancialGoals.table st'
          /\ FinancialGoals.updateGoalProgress be' goalId amount st' = st')).
Proof.
  intros outcome st'. subst st' outcome. unfold FinancialGoals.deleteGoal.
  destruct delete_ok; simpl.
  - unfold FinancialGoals.fetchGoals.
    assert (Hgone : forall row,
               In row (filter (fun row =>
                                 negb (FinancialGoal.id row =? goalId)%string)
                              (FinancialGoals.table st)) ->
               FinancialGoal.id row <> goalId).
    { intros row Hrow. apply filter_In in Hrow. destruct Hrow as [_ Hne].
      apply negb_true_iff, String.eqb_neq in Hne. exact Hne. }
    destruct (FinancialGoals.fetch_ok be) eqn:Hfetch; simpl.
    + split; [reflexivity |]. split; [reflexivity |].
      split; [discriminate |]. intros _.
      split; [reflexivity |]. split; [exact Hgone |]. intros _.
      split; [reflexivity |].
      unfold FinancialGoals.updateGoalProgress. simpl.
      rewrite (proj2 (find_none_iff goalId _) Hgone). reflexivity.
    + split; [reflexivity |]. split; [reflexivity |].
      split; [discriminate |]. intros _.
      split; [reflexivity |]. split; [exact Hgone |]. discriminate.
  - split; [reflexivity |]. split; [reflexivity |].
    split; [reflexivity | discriminate].
Qed.

Lemma deleteGoal_contract_witness :
  let g1 := FinancialGoal.mk "g1" "Vacation" 10000 9500 None None false in
  let g2 := FinancialGoal.mk "g2" "Car" 500000 0 None None false in
  let be := FinancialGoals.mkBackend true true in
  let st := FinancialGoals.mkState [g1; g2] [g1; g2] [] [] in
  let st' := FinancialGoals.state (FinancialGoals.deleteGoal true be "g1" st) in
  FinancialGoals.goals st' = [g2]
  /\ FinancialGoals.updateGoalProgress be "g1" 1000 st' = st'.
Proof.
  intros g1 g2 be st st'.
  destruct (deleteGoal_contract true be be "g1" 1000 st)
    as [_ [_ [_ H]]].
  destruct (H eq_refl) as [_ [_ Hfetch]].
  destruct (Hfetch eq_refl) as [_ Hnoop].
  split; [reflexivity | exact Hnoop].
Defined.

(** ** The budget card *)

Lemma binary_round_aux_not_zero s m e l z :
  (0 < m)%Z -> (-1074 <= e)%Z ->
  binary_round_aux prec emax s m e l <> S754_zero z.
Proof.
  intros Hm He. unfold binary_round_aux.
  destruct (shr_fexp_pos m e l Hm He) as [H1 H1e].
  destruct (shr_fexp prec emax m e l) as [mrs' e']. simpl in H1, H1e.
  destruct (shr_fexp_pos _ e' loc_Exact
              (round_nearest_even_pos _ (loc_of_shr_record mrs') H1) H1e)
    as [H2 _].
  destruct (shr_fexp prec emax _ e' loc_Exact) as [mrs'' e'']. simpl in H2.
  destruct (shr_m mrs'') as [| p | p]; try lia.
  match goal with |- context [if ?c then _ else _] => destruct c end;
    discriminate.
Qed.

Lemma binary_round_not_zero s m e z :
  (-1074 <= e)%Z -> binary_round prec emax s m e <> S754_zero z.
Proof.
  intros He. unfold binary_round, shl_align.
  set (e' := fexp prec emax (Zpos (digits2_pos m) + e)).
  assert (He' : (-1074 <= e')%Z).
  { subst e'. unfold fexp, SpecFloat.emin.
    change prec with 53%Z. change emax with 1024%Z. lia. }
  destruct (e' - e)%Z; apply binary_round_aux_not_zero; lia.
Qed.

(** The difference of two valid positive numbers is negative exactly
    when the first is the smaller. *)
Lemma SFsub_nonneg_finite ma ea mb eb :
  valid_binary (S754_finite false ma ea) = true ->
  valid_binary (S754_finite false mb eb) = true ->
  sf_nonneg (SF64sub (S754_finite false mb eb) (S754_finite false ma ea))
  = negb (SFltb (S754_finite false mb eb) (S754_finite false ma ea)).
Proof.
  intros Va Vb. unfold SFltb. rewrite (SFcompare_aligned _ _ _ _ Vb Va).
  unfold SF64sub, SFsub, cond_Zopp.
  set (B := Zpos (fst (shl_align mb eb (Z.min eb ea)))).
  set (A := Zpos (fst (shl_align ma ea (Z.min eb ea)))).
  assert (He : (-1074 <= Z.min eb ea)%Z).
  { apply valid_finite in Va. apply valid_finite in Vb. lia. }
  destruct (Z.compare_spec B A) as [E | L | G].
  - rewrite E, Z.sub_diag. reflexivity.
  - destruct (B - A)%Z as [| p | p] eqn:D; try lia. simpl.
    pose proof (binary_round_signed true p (Z.min eb ea)) as Hs.
    pose proof (binary_round_not_zero true p (Z.min eb ea)) as Hz.
    destruct (binary_round prec emax true p (Z.min eb ea))
      as [z | [] | | [] m e]; simpl in *; try discriminate; try reflexivity.
    exfalso. now apply (Hz z).
  - destruct (B - A)%Z as [| p | p] eqn:D; try lia. simpl.
    apply sf_plus_nonneg, binary_round_signed.
Qed.

(** For a positive finite [b] and a non-negative [a], [b - a >= 0]
    exactly when [b] is not below [a]. *)
Lemma sub_nonneg_iff b a :
  (0 <? b) = true -> is_finite b = true ->
  sf_plus (Prim2SF a) = true ->
  (0 <=? b - a) = negb (b <? a).
Proof.
  rewrite ltb_0_pos, leb_0_nonneg, sub_spec, FloatAxioms.ltb_spec.
  intros Hb Hfin Ha.
  pose proof (Prim2SF_valid a) as Va. pose proof (Prim2SF_valid b) as Vb.
  apply is_finite_Prim2SF in Hfin.
  destruct Hfin as [[s E] | [s [m [e E]]]]; rewrite E in *;
    [discriminate |].
  destruct s; [discriminate |].
  destruct (Prim2SF a) as [[] | [] | | [] ma ea]; try discriminate;
    try reflexivity.
  now apply SFsub_nonneg_finite.
Qed.

(** For a budget with a positive finite limit and non-negative
    expenses the value of the progress bar,
    [Math.min(budget.percentage, 100)], lies between 0 and 100, also
    when the budget is overspent. *)
Theorem budget_bar_range budgets transactions a :
  In a (BudgetManager.budgetAnalysis budgets transactions) ->
  check_limit_amount (BudgetManager.budget a) ->
  is_finite (Budget.limit_amount (BudgetManager.budget a)) = true ->
  (forall t, In t transactions ->
             counts_towards (BudgetManager.budget a) t ->
             (0 <=? Transaction.amount t) = true) ->
  BudgetManager.progressValue a = JS.min (BudgetManager.percentage a) 100
  /\ (0 <=? BudgetManager.progressValue a) = true
  /\ (BudgetManager.progressValue a <=? 100) = true.
Proof.
  intros Ha. apply budgetAnalysis_elements in Ha.
  destruct Ha as [b [_ ->]]. intros Hpos Hfin Hamt.
  destruct (analyse_nonneg transactions b Hpos Hfin Hamt) as [_ [_ Hpct]].
  split; [reflexivity |].
  unfold BudgetManager.progressValue.
  apply min_bounds; [exact Hpct | reflexivity].
Qed.

Lemma budget_bar_range_witness :
  let budget :=
    Budget.mk "b1" "food" 800 monthly "2024-05-01" "2024-05-31" in
  let transactions :=
    [ Transaction.mk "t1" "2024-05-01" "food" 1000 Expense None;
      Transaction.mk "t2" "2024-05-02" "salary" 5000 Income None ] in
  let a := BudgetManager.analyse transactions budget in
  BudgetManager.percentage a = 125
  /\ BudgetManager.progressValue a = 100
  /\ (0 <=? BudgetManager.progressValue a) = true
  /\ (BudgetManager.progressValue a <=? 100) = true.
Proof.
  intros budget transactions a.
  assert (Ha : In a (BudgetManager.budgetAnalysis [budget] transactions))
    by (left; reflexivity).
  destruct (budget_bar_range [budget] transactions a Ha eq_refl eq_refl)
    as [_ [Hlo Hhi]].
  - intros t [<- | [<- | []]] _; reflexivity.
  - split; [reflexivity | split; [reflexivity | split; assumption]].
Defined.

(** For such a budget the two signs of overspending agree: the text
    under the bar reads "exceeded" ([remaining < 0]) exactly when the
    card is marked as over budget ([spent > limit_amount]). *)
Theorem budget_texts_agree budgets transactions a :
  In a (BudgetManager.budgetAnalysis budgets transactions) ->
  check_limit_amount (BudgetManager.budget a) ->
  is_finite (Budget.limit_amount (BudgetManager.budget a)) = true ->
  (forall t, In t transactions ->
             counts_towards (BudgetManager.budget a) t ->
             (0 <=? Transaction.amount t) = true) ->
  BudgetManager.remainingText a = BudgetManager.Exceeded
  <-> BudgetManager.isOverBudget a = true.
Proof.
  intros Ha. apply budgetAnalysis_elements in Ha.
  destruct Ha as [b [_ ->]]. simpl. intros Hpos Hfin Hamt.
  destruct (sum_amounts_nonneg (BudgetManager.matches b) transactions)
    as [Hplus _].
  { intros t Ht Hm. apply (Hamt t Ht). now apply matches_counts_towards. }
  unfold BudgetManager.remainingText. simpl.
  rewrite (sub_nonneg_iff _ _ Hpos Hfin Hplus).
  destruct (Budget.limit_amount b
            <? sum_amounts (BudgetManager.matches b) transactions);
    simpl; split; congruence.
Qed.

Lemma budget_texts_agree_witness :
  let budget :=
    Budget.mk "b1" "food" 800 monthly "2024-05-01" "2024-05-31" in
  let transactions :=
    [ Transaction.mk "t1" "2024-05-01" "food" 1000 Expense None;
      Transaction.mk "t2" "2024-05-02" "salary" 5000 Income None ] in
  let a := BudgetManager.analyse transactions budget in
  BudgetManager.isOverBudget a = true
  /\ BudgetManager.remainingText a = BudgetManager.Exceeded.
Proof.
  intros budget transactions a.
  assert (Ha : In a (BudgetManager.budgetAnalysis [budget] transactions))
    by (left; reflexivity).
  destruct (budget_texts_agree [budget] transactions a Ha eq_refl eq_refl)
    as [_ Hagree].
  - intros t [<- | [<- | []]] _; reflexivity.
  - split; [reflexivity |]. apply Hagree. reflexivity.
Defined.

(** ** The six largest categories *)

Lemma SFleb_finite_plus m1 e1 m2 e2 :
  SFleb (S754_finite false m1 e1) (S754_finite false m2 e2) = true
  <-> (e1 < e2 \/ (e1 = e2 /\ Zpos m1 <= Zpos m2))%Z.
Proof.
  unfold SFleb. simpl.
  change (Pos.compare_cont Eq m1 m2) with (Pos.compare m1 m2).
  destruct (Z.compare_spec e1 e2) as [E | L | G].
  - destruct (Pos.compare_spec m1 m2) as [Em | Lm | Gm];
      split; try discriminate; try lia; intros _; reflexivity.
  - split; [lia | reflexivity].
  - split; [discriminate | lia].
Qed.

Lemma leb_trans_plus x y z :
  sf_plus (Prim2SF x) = true -> sf_plus (Prim2SF y) = true ->
  sf_plus (Prim2SF z) = true ->
  (x <=? y) = true -> (y <=? z) = true -> (x <=? z) = true.
Proof.
  rewrite !FloatAxioms.leb_spec. intros Hx Hy Hz.
  destruct (Prim2SF x) as [[] | [] | | [] mx ex]; try discriminate;
    destruct (Prim2SF y) as [[] | [] | | [] my ey]; try discriminate;
    destruct (Prim2SF z) as [[] | [] | | [] mz ez]; try discriminate;
    try (cbv; congruence).
  rewrite !SFleb_finite_plus. lia.
Qed.

Lemma pos_leb_pos x y :
  (0 <? x) = true -> (x <=? y) = true -> (0 <? y) = true.
Proof.
  rewrite !ltb_0_pos, FloatAxioms.leb_spec.
  destruct (Prim2SF x) as [[] | [] | | [] mx ex]; try discriminate;
    destruct (Prim2SF y) as [[] | [] | | [] my ey]; cbv; congruence.
Qed.

(** In a list sorted by amount whose amounts are not negative, the
    head is at least every other element. *)
Lemma sorted_head_largest (l : list ChartItem.t) :
  Sorted amount_desc l ->
  Forall (fun item => sf_plus (Prim2SF (ChartItem.amount item)) = true) l ->
  forall x rest, l = x :: rest -> Forall (amount_desc x) rest.
Proof.
  induction l as [| y l' IH]; intros Hs Hok x rest E; [discriminate |].
  injection E as -> ->.
  inversion Hs as [| ? ? Hs' Hhd]; subst.
  inversion Hok as [| ? ? Hx Hok']; subst.
  destruct rest as [| z rest']; [constructor |].
  inversion Hhd as [| ? ? Hxz]; subst.
  constructor; [exact Hxz |].
  specialize (IH Hs' Hok' z rest' eq_refl).
  inversion Hok' as [| ? ? Hz Hok'']; subst.
  rewrite Forall_forall in *. intros w Hw.
  unfold amount_desc in *.
  apply (leb_trans_plus _ (ChartItem.amount z)); auto.
Qed.


(** The facts about the sorted list of all category items that the
    chart is cut from. *)
Lemma chartData_all_items month transactions :
  (forall t, In t transactions -> in_month month Expense t ->
             JSObject.inherited (Transaction.category t) = false
             /\ (0 <=? Transaction.amount t) = true) ->
  exists all,
    ExpenseChart.chartData month transactions = Some (firstn 6 all)
    /\ Sorted amount_desc all
    /\ Forall (fun item => sf_plus (Prim2SF (ChartItem.amount item)) = true)
              all
    /\ NoDup (map ChartItem.category all)
    /\ forall item,
         In item all
         <-> ChartItem.percentage item = 0
             /\ (exists t, In t transactions
                           /\ expense_of month (ChartItem.category item) t)
             /\ ChartItem.amount item
                = total_where (expense_of month (ChartItem.category item))
                    (expense_of_dec month (ChartItem.category item))
                    transactions.
Proof.
  intros H.
  set (obj := ExpenseChart.categoryTotals
                (ExpenseChart.monthExpenses month transactions)).
  set (items := map (fun '(category, amount) => ChartItem.mk category amount 0)
                    (JSObject.entries obj)).
  exists (array_sort ExpenseChart.by_amount_desc items).
  destruct (categoryTotals_contract month transactions
              (fun t Ht Hm => proj2 (H t Ht Hm))) as [Hnd [Hplus Hin]].
  fold obj in Hnd, Hplus, Hin.
  pose proof (array_sort_perm ExpenseChart.by_amount_desc items) as Hperm.
  assert (Hok : Forall (fun item =>
                          sf_plus (Prim2SF (ChartItem.amount item)) = true)
                       items).
  { apply Forall_forall. intros item Hitem.
    apply in_map_iff in Hitem. destruct Hitem as [[c a] [<- Hca]].
    simpl. apply (Hplus c a). apply in_get; [exact Hnd |].
    exact (Permutation_in _ (entries_perm obj) Hca). }
  split; [apply chartData_some; intros t Ht Hm; apply (H t Ht Hm) |].
  split.
  { apply (array_sort_sorted ExpenseChart.by_amount_desc amount_desc
             (fun item => sf_plus (Prim2SF (ChartItem.amount item)) = true));
      [intros a b; apply by_amount_desc_after
      | intros a b; apply by_amount_desc_before | exact Hok]. }
  split; [exact (Permutation_Forall (Permutation_sym Hperm) Hok) |].
  split.
  { apply (Permutation_NoDup
             (Permutation_map ChartItem.category (Permutation_sym Hperm))).
    unfold items. rewrite entries_items_category.
    apply (Permutation_NoDup
             (Permutation_map fst (Permutation_sym (entries_perm obj)))).
    exact Hnd. }
  intros item. split.
  - intros Hitem. apply (Permutation_in _ Hperm) in Hitem.
    apply in_map_iff in Hitem. destruct Hitem as [[c a] [<- Hca]].
    simpl. split; [reflexivity |].
    apply Hin. exact (Permutation_in _ (entries_perm obj) Hca).
  - destruct item as [c a p]. simpl. intros [-> Hca].
    apply (Permutation_in _ (Permutation_sym Hperm)).
    apply in_entries_items.
    apply (Permutation_in _ (Permutation_sym (entries_perm obj))).
    now apply Hin.
Qed.



(** ** The labels of the expense chart *)

(** The labels are percentages exactly when some expense of the month
    has a positive amount, also when that expense belongs to a category
    the chart drops; when none has, every label is ["0"]. *)
Theorem expenseChart_zero_labels currentMonth transactions :
  (forall t, In t transactions -> in_month currentMonth Expense t ->
             JSObject.inherited (Transaction.category t) = false
             /\ (0 <=? Transaction.amount t) = true) ->
  exists items,
    ExpenseChart.chartData currentMonth transactions = Some items
    /\ ((0 <? ExpenseChart.totalAmount items) = true
        <-> exists t, In t transactions /\ in_month currentMonth Expense t
                      /\ (0 <? Transaction.amount t) = true)
    /\ ((forall t, In t transactions -> in_month currentMonth Expense t ->
                   (0 <? Transaction.amount t) = false) ->
        forall slice,
          In slice (ExpenseChart.dataWithPercentages items) ->
          ChartSlice.percentage slice = Some "0"%string).
Proof.
  intros H.
  destruct (chartData_all_items currentMonth transactions H)
    as [all [Hdata [Hsorted [Hok [_ Hin]]]]].
  exists (firstn 6 all). split; [exact Hdata |].
  assert (Hkept : forall item, In item (firstn 6 all) -> In item all).
  { intros item Hitem. rewrite <- (firstn_skipn 6 all).
    apply in_app_iff. now left. }
  assert (Hpos_item : forall item,
             In item all ->
             ((0 <? ChartItem.amount item) = true
              <-> exists t, In t transactions
                            /\ expense_of currentMonth
                                 (ChartItem.category item) t
                            /\ (0 <? Transaction.amount t) = true)).
  { intros item Hitem. apply Hin in Hitem. destruct Hitem as [_ [_ ->]].
    set (c := ChartItem.category item).
    rewrite <- (sum_amounts_total_where (expense_of currentMonth c)
                  (expense_of_dec currentMonth c)
                  (fun t => if expense_of_dec currentMonth c t
                            then true else false)).
    2: { intros t. destruct (expense_of_dec currentMonth c t);
           split; auto; discriminate. }
    destruct (sum_amounts_nonneg
                (fun t => if expense_of_dec currentMonth c t
                          then true else false) transactions) as [_ ->].
    { intros t Ht Hp. destruct (expense_of_dec currentMonth c t) as [E |];
        [| discriminate]. apply (H t Ht), E. }
    rewrite existsb_exists. split.
    - intros [t [Ht Hp]]. exists t.
      destruct (expense_of_dec currentMonth c t); [| discriminate].
      simpl in Hp. auto.
    - intros [t [Ht [E Hp]]]. exists t. split; [exact Ht |].
      destruct (expense_of_dec currentMonth c t); [exact Hp | contradiction]. }
  assert (Htotal : (0 <? ExpenseChart.totalAmount (firstn 6 all)) = true
                   <-> exists t, In t transactions
                                 /\ in_month currentMonth Expense t
                                 /\ (0 <? Transaction.amount t) = true).
  { unfold ExpenseChart.totalAmount.
    destruct (fold_amounts_plus _ ChartItem.amount (firstn 6 all) 0 sf_plus_0)
      as [_ ->].
    { intros item Hitem. rewrite leb_0_nonneg. apply sf_plus_nonneg.
      rewrite Forall_forall in Hok. apply Hok, Hkept, Hitem. }
    change (0 <? 0) with false. simpl orb. rewrite existsb_exists. split.
    - intros [item [Hitem Hp]].
      apply (Hpos_item item (Hkept item Hitem)) in Hp.
      destruct Hp as [t [Ht [[Hm _] Hp]]]. exists t. auto.
    - intros [t [Ht [Hm Hp]]].
      set (item := ChartItem.mk (Transaction.category t)
                     (total_where
                        (expense_of currentMonth (Transaction.category t))
                        (expense_of_dec currentMonth (Transaction.category t))
                        transactions) 0).
      assert (Hitem : In item all).
      { apply Hin. simpl. split; [reflexivity |]. split; [| reflexivity].
        exists t. split; [exact Ht | split; [exact Hm | reflexivity]]. }
      assert (Hitem_pos : (0 <? ChartItem.amount item) = true).
      { apply (Hpos_item item Hitem). exists t.
        split; [exact Ht |]. split; [| exact Hp].
        split; [exact Hm | reflexivity]. }
      destruct all as [| head rest]; [destruct Hitem |].
      exists head. split; [left; reflexivity |].
      destruct Hitem as [<- | Hrest]; [exact Hitem_pos |].
      pose proof (sorted_head_largest _ Hsorted Hok head rest eq_refl) as Hall.
      rewrite Forall_forall in Hall.
      exact (pos_leb_pos _ _ Hitem_pos (Hall item Hrest)). }
  split; [exact Htotal |].
  intros Hnone slice Hslice.
  unfold ExpenseChart.dataWithPercentages in Hslice.
  apply in_map_iff in Hslice. destruct Hslice as [item [<- _]].
  cbn [ChartSlice.percentage].
  destruct (0 <? ExpenseChart.totalAmount (firstn 6 all)) eqn:E;
    [| reflexivity].
  destruct (proj1 Htotal eq_refl) as [t [Ht [Hm Hp]]].
  rewrite (Hnone t Ht Hm) in Hp. discriminate.
Qed.

Lemma expenseChart_zero_labels_witness :
  let transactions :=
    [ Transaction.mk "1" "2024-05-03" "food" 0 Expense None;
      Transaction.mk "2" "2024-05-04" "rent" 0 Expense None;
      Transaction.mk "3" "2024-04-30" "rent" 900 Expense None;
      Transaction.mk "4" "2024-05-05" "salary" 3000 Income None ]%string in
  exists items,
    ExpenseChart.chartData "2024-05" transactions = Some items
    /\ map ChartSlice.percentage (ExpenseChart.dataWithPercentages items)
       = [Some "0"; Some "0"]%string.
Proof.
  intros transactions.
  destruct (expenseChart_zero_labels "2024-05" transactions)
    as [items [Hdata [_ Hzero]]].
  - intros t Ht _.
    repeat (destruct Ht as [<- | Ht]; [split; reflexivity |]). destruct Ht.
  - exists items. split; [exact Hdata |].
    assert (Hlen : List.length (ExpenseChart.dataWithPercentages items) = 2%nat).
    { assert (E : Some items
                  = Some [ChartItem.mk "food" 0 0; ChartItem.mk "rent" 0 0]%string)
        by (rewrite <- Hdata; reflexivity).
      injection E as ->. reflexivity. }
    assert (Hall : forall slice,
               In slice (ExpenseChart.dataWithPercentages items) ->
               ChartSlice.percentage slice = Some "0"%string).
    { apply Hzero. intros t Ht [Hty Hpre].
      repeat (destruct Ht as [<- | Ht];
              [first [reflexivity | discriminate Hty | discriminate Hpre] |]).
      destruct Ht. }
    destruct (ExpenseChart.dataWithPercentages items) as [| s1 [| s2 [| s3 l]]];
      try discriminate Hlen.
    simpl. rewrite (Hall s1), (Hall s2); simpl; auto.
Defined.
